(** * Intelligence Platform: the record store, authentication and
      dashboard access of the application, embedded from the Python sources

    - [Py]      exceptions and the outcome of a call that may raise
    - [Sql]     the few SQL statement shapes the store uses, over tables
                kept as lists of rows in rowid order
    - [Config]  src/config.py
    - [Db]      src/database/db_manager.py, class DatabaseManager
    - [Auth]    src/auth/authentication.py, class AuthenticationSystem
    - [Main]    src/main.py, show_main_application
    - [App]     src/main.py, one run of the script and the session state
    - [DataImport]  src/utils/data_import.py, the row validators

    Conventions.  A TIMESTAMP column holds the instant it denotes, in whole
    seconds since the Unix epoch; [CURRENT_TIMESTAMP] is an argument [now]
    of every statement that reads the clock.  The one TIMESTAMP column that
    the store itself parses, [created_at] of an incident, holds the text
    the caller gave, which SQLite may be unable to read as a time
    ([time_text]).  A REAL
    is the rational that its double denotes; what SQLite computes in
    floating point ([julianday], the difference and product of the
    resolution time, AVG) is taken as an interface, [SqlReal].  The salt
    drawn by [bcrypt.gensalt()] is an argument of the call that draws it.
    What the storage engine does during one call (works, or raises while
    connecting, executing or committing) is the [storage_event] argument
    of that call. *)

From Stdlib Require Import String List ZArith QArith Bool Lia.
Import ListNotations.

Open Scope string_scope.
Open Scope Z_scope.

(* ================================================================== *)
(** ** Python exceptions *)

Module Py.

(** The exception classes the sources name or can meet. *)
Inductive exn : Type :=
| IntegrityError (msg : string)     (* sqlite3.IntegrityError *)
| OperationalError (msg : string)   (* sqlite3.OperationalError: disk I/O, locked *)
| ValueError (msg : string).

Inductive outcome (A : Type) : Type :=
| Ret (a : A)
| Raise (e : exn).

Arguments Ret {A} a.
Arguments Raise {A} e.

End Py.
Import Py.

(* ================================================================== *)
(** ** SQL statements over a table *)

Module Sql.
Section Table.
Context {R : Type}.

(** [SELECT COUNT( * ) FROM t WHERE p] *)
Definition count_where (p : R -> bool) (t : list R) : Z :=
  Z.of_nat (length (filter p t)).

(** [UPDATE t SET ... WHERE p]: every SET expression reads the old row;
    the second component is [cursor.rowcount]. *)
Definition update_where (p : R -> bool) (set : R -> R) (t : list R)
  : list R * Z :=
  (map (fun r => if p r then set r else r) t, count_where p t).

(** [DELETE FROM t WHERE p] with its [cursor.rowcount]. *)
Definition delete_where (p : R -> bool) (t : list R) : list R * Z :=
  (filter (fun r => negb (p r)) t, count_where p t).

(** [SELECT ... FROM t WHERE p] followed by [fetchone()]. *)
Definition fetchone_where (p : R -> bool) (t : list R) : option R :=
  find p t.

End Table.
End Sql.
Import Sql.

(* ================================================================== *)
(** ** src/config.py *)

Module Config.

Definition DASHBOARD_PERMISSIONS : list (string * list string) :=
  [ ("admin", ["executive"; "cybersecurity"; "data_science"; "it_operations"; "ai_assistant"]);
    ("cybersecurity", ["executive"; "cybersecurity"; "ai_assistant"]);
    ("data_science", ["executive"; "data_science"; "ai_assistant"]);
    ("it_operations", ["executive"; "it_operations"; "ai_assistant"]) ].

Definition INCIDENT_SEVERITIES : list string := ["Low"; "Medium"; "High"; "Critical"].
Definition INCIDENT_STATUSES : list string := ["Open"; "In Progress"; "Resolved"].
Definition TICKET_STATUSES : list string :=
  ["Open"; "In Progress"; "Resolved"; "Closed"].

(** [DEFAULT_USERS]: username, then password and role. *)
Definition DEFAULT_USERS : list (string * (string * string)) :=
  [ ("admin", ("admin123", "admin"));
    ("cyber", ("cyber123", "cybersecurity"));
    ("data", ("data123", "data_science"));
    ("it", ("it123", "it_operations")) ].

End Config.

(* ================================================================== *)
(** ** Time *)

Definition timestamp : Type := Z.

(** Text in a TIMESTAMP column that the caller supplied: text that SQLite
    reads as a time, kept as the instant it denotes, or any other text. *)
Inductive time_text : Type :=
| Readable (t : timestamp)
| Unreadable (text : string).

(** SQLite's floating-point computations, as an interface.  A REAL is the
    rational its double denotes.
    - [julianday t]: [julianday()] of a time, days since noon, 24 November
      4714 BC (the Unix epoch is day 2440587.5);
    - [real_minus], [real_times]: [-] and [*] on REAL values;
    - [real_avg q qs]: [AVG] over the values [q :: qs]. *)
Class SqlReal : Type :=
  { julianday : timestamp -> Q;
    real_minus : Q -> Q -> Q;
    real_times : Q -> Q -> Q;
    real_avg : Q -> list Q -> Q }.

(** [julianday(created_at)] on stored text: NULL when SQLite cannot read
    the text as a time. *)
Definition julianday_text {Sq : SqlReal} (c : time_text) : option Q :=
  match c with
  | Readable t => Some (julianday t)
  | Unreadable _ => None
  end.

(** A Python float handed to the store as a parameter: a number, read
    as the rational it denotes, or NaN.  The two infinities, for which a
    REAL column read as [option Q] has no value, are left out. *)
Inductive pyfloat : Type :=
| Finite (q : Q)
| NaN.

Coercion Finite : Q >-> pyfloat.

(** Binding a float to a [?]: SQLite stores NaN as NULL. *)
Definition bind_float (x : pyfloat) : option Q :=
  match x with
  | Finite q => Some q
  | NaN => None
  end.

(* ================================================================== *)
(** ** Rows of the four tables *)

Module User.
Record row : Type := mk
  { username : string;
    password_hash : string;
    role : string;
    created_at : timestamp }.
End User.

Module Incident.
Record row : Type := mk
  { id : Z;
    title : string;
    description : option string;
    threat_type : string;
    severity : string;
    status : string;
    created_at : time_text;
    resolved_at : option timestamp;
    resolution_time_hours : option Q;
    assigned_to : option string }.
End Incident.

Module Dataset.
Record row : Type := mk
  { id : Z;
    name : string;
    source_department : string;
    size_mb : Q;
    row_count : Z;
    column_count : Z;
    quality_score : option Q;
    last_accessed : option timestamp;
    created_at : option timestamp;
    sensitivity : option string }.
End Dataset.

Module Ticket.
Record row : Type := mk
  { id : Z;
    title : string;
    description : option string;
    status : string;
    assigned_to : string;
    current_stage : string;
    priority : option string;
    created_at : timestamp;
    resolved_at : option timestamp;
    time_in_stage_hours : option Q;
    category : option string }.
End Ticket.

Definition is_null {A} (o : option A) : bool :=
  match o with None => true | Some _ => false end.

(* ================================================================== *)
(** ** The bcrypt package *)

(** The two functions of the [bcrypt] package that the sources call, taken
    as an interface: [hashpw password salt] with a salt drawn by
    [gensalt()], and [checkpw password hashed], which raises on a hash it
    cannot parse.  Encoding to and from UTF-8 is folded into them. *)
Class Bcrypt : Type :=
  { hashpw : string -> string -> string;
    checkpw : string -> string -> outcome bool }.

(* ================================================================== *)
(** ** src/database/db_manager.py *)

Module Db.

Record database : Type := mkdb
  { users : list User.row;
    cyber_incidents : list Incident.row;
    datasets_metadata : list Dataset.row;
    it_tickets : list Ticket.row }.

Definition empty_db : database := mkdb [] [] [] [].

(** What the storage engine does during one call of a method. *)
Inductive storage_event : Type :=
| Healthy
| FailConnect (e : exn)    (* sqlite3.connect raises *)
| FailExecute (e : exn)    (* cursor.execute raises *)
| FailCommit (e : exn).    (* conn.commit raises; nothing is persisted *)

Definition is_healthy (ev : storage_event) : bool :=
  match ev with Healthy => true | _ => false end.

Definition with_incidents (db : database) (t : list Incident.row) : database :=
  mkdb (users db) t (datasets_metadata db) (it_tickets db).
Definition with_datasets (db : database) (t : list Dataset.row) : database :=
  mkdb (users db) (cyber_incidents db) t (it_tickets db).
Definition with_tickets (db : database) (t : list Ticket.row) : database :=
  mkdb (users db) (cyber_incidents db) (datasets_metadata db) t.
Definition with_users (db : database) (t : list User.row) : database :=
  mkdb t (cyber_incidents db) (datasets_metadata db) (it_tickets db).

(** The shape shared by the three update and the three delete methods:
<<
    conn = self.get_connection()
    try:
        cursor = conn.cursor(); cursor.execute(stmt); conn.commit()
        return cursor.rowcount > 0
    except Exception as e:
        print(...); return False
    finally:
        conn.close()
>>  *)
Definition guarded_write (ev : storage_event) (db : database)
    (stmt : database -> database * Z) : outcome bool * database :=
  match ev with
  | FailConnect e => (Raise e, db)
  | FailExecute _ => (Ret false, db)
  | FailCommit _ => (Ret false, db)
  | Healthy => let '(db', rowcount) := stmt db in (Ret (0 <? rowcount), db')
  end.

(** *** update_incident_status *)

Definition has_incident_id (incident_id : Z) (r : Incident.row) : bool :=
  Incident.id r =? incident_id.

(** [(julianday(CURRENT_TIMESTAMP) - julianday(created_at)) * 24]: NULL when
    [julianday(created_at)] is. *)
Definition resolution_hours {Sq : SqlReal} (now : timestamp) (created_at : time_text)
  : option Q :=
  match julianday_text created_at with
  | Some created => Some (real_times (real_minus (julianday now) created) 24)
  | None => None
  end.

(** The SET clause of the UPDATE in [update_incident_status]. *)
Definition incident_set_status {Sq : SqlReal} (now : timestamp) (status : string)
    (r : Incident.row) : Incident.row :=
  {| Incident.id := Incident.id r;
     Incident.title := Incident.title r;
     Incident.description := Incident.description r;
     Incident.threat_type := Incident.threat_type r;
     Incident.severity := Incident.severity r;
     Incident.status := status;
     Incident.created_at := Incident.created_at r;
     Incident.resolved_at :=
       if (status =? "Resolved")%string then Some now
       else Incident.resolved_at r;
     Incident.resolution_time_hours :=
       if (status =? "Resolved")%string && is_null (Incident.resolution_time_hours r)
       then resolution_hours now (Incident.created_at r)
       else Incident.resolution_time_hours r;
     Incident.assigned_to := Incident.assigned_to r |}.

Definition update_incident_status {Sq : SqlReal} (ev : storage_event)
    (now : timestamp)
    (incident_id : Z) (status : string) (db : database)
  : outcome bool * database :=
  guarded_write ev db (fun db =>
    let '(t, n) := update_where (has_incident_id incident_id)
                      (incident_set_status now status) (cyber_incidents db) in
    (with_incidents db t, n)).

(** *** update_ticket_status *)

Definition has_ticket_id (ticket_id : Z) (r : Ticket.row) : bool :=
  Ticket.id r =? ticket_id.

Definition ticket_set_status (now : timestamp) (status current_stage : string)
    (r : Ticket.row) : Ticket.row :=
  {| Ticket.id := Ticket.id r;
     Ticket.title := Ticket.title r;
     Ticket.description := Ticket.description r;
     Ticket.status := status;
     Ticket.assigned_to := Ticket.assigned_to r;
     Ticket.current_stage := current_stage;
     Ticket.priority := Ticket.priority r;
     Ticket.created_at := Ticket.created_at r;
     Ticket.resolved_at :=
       if (status =? "Resolved")%string || (status =? "Closed")%string
       then Some now else Ticket.resolved_at r;
     Ticket.time_in_stage_hours := Ticket.time_in_stage_hours r;
     Ticket.category := Ticket.category r |}.

Definition update_ticket_status (ev : storage_event) (now : timestamp)
    (ticket_id : Z) (status current_stage : string) (db : database)
  : outcome bool * database :=
  guarded_write ev db (fun db =>
    let '(t, n) := update_where (has_ticket_id ticket_id)
                      (ticket_set_status now status current_stage) (it_tickets db) in
    (with_tickets db t, n)).

(** *** update_dataset_quality *)

Definition has_dataset_id (dataset_id : Z) (r : Dataset.row) : bool :=
  Dataset.id r =? dataset_id.

Definition dataset_set_quality (now : timestamp) (quality_score : pyfloat)
    (r : Dataset.row) : Dataset.row :=
  {| Dataset.id := Dataset.id r;
     Dataset.name := Dataset.name r;
     Dataset.source_department := Dataset.source_department r;
     Dataset.size_mb := Dataset.size_mb r;
     Dataset.row_count := Dataset.row_count r;
     Dataset.column_count := Dataset.column_count r;
     Dataset.quality_score := bind_float quality_score;
     Dataset.last_accessed := Some now;
     Dataset.created_at := Dataset.created_at r;
     Dataset.sensitivity := Dataset.sensitivity r |}.

Definition update_dataset_quality (ev : storage_event) (now : timestamp)
    (dataset_id : Z) (quality_score : pyfloat) (db : database)
  : outcome bool * database :=
  guarded_write ev db (fun db =>
    let '(t, n) := update_where (has_dataset_id dataset_id)
                      (dataset_set_quality now quality_score) (datasets_metadata db) in
    (with_datasets db t, n)).

(** *** delete_it_ticket, delete_dataset, delete_incident *)

Definition delete_it_ticket (ev : storage_event) (ticket_id : Z) (db : database)
  : outcome bool * database :=
  guarded_write ev db (fun db =>
    let '(t, n) := delete_where (has_ticket_id ticket_id) (it_tickets db) in
    (with_tickets db t, n)).

Definition delete_dataset (ev : storage_event) (dataset_id : Z) (db : database)
  : outcome bool * database :=
  guarded_write ev db (fun db =>
    let '(t, n) := delete_where (has_dataset_id dataset_id) (datasets_metadata db) in
    (with_datasets db t, n)).

Definition delete_incident (ev : storage_event) (incident_id : Z) (db : database)
  : outcome bool * database :=
  guarded_write ev db (fun db =>
    let '(t, n) := delete_where (has_incident_id incident_id) (cyber_incidents db) in
    (with_incidents db t, n)).

(** The six methods above, each as a function of the engine's behaviour
    and the store. *)
Definition write_methods {Sq : SqlReal} (now : timestamp) (id : Z)
    (status current_stage : string)
    (quality_score : pyfloat)
  : list (storage_event -> database -> outcome bool * database) :=
  [ (fun ev => update_ticket_status ev now id status current_stage);
    (fun ev => update_dataset_quality ev now id quality_score);
    (fun ev => update_incident_status ev now id status);
    (fun ev => delete_it_ticket ev id);
    (fun ev => delete_dataset ev id);
    (fun ev => delete_incident ev id) ].

(** *** create_user, get_user *)

Definition has_username (username : string) (r : User.row) : bool :=
  (User.username r =? username)%string.

(** [INSERT INTO users (username, password_hash, role) VALUES (?, ?, ?)]:
    [username] is the primary key, [created_at] defaults to the clock. *)
Definition insert_user (now : timestamp) (username password_hash role : string)
    (t : list User.row) : outcome (list User.row) :=
  if 0 <? count_where (has_username username) t
  then Raise (IntegrityError "UNIQUE constraint failed: users.username")
  else Ret (t ++ [User.mk username password_hash role now])%list.

(** [except sqlite3.IntegrityError: return False] *)
Definition except_IntegrityError (db : database) (e : exn)
  : outcome bool * database :=
  match e with
  | IntegrityError _ => (Ret false, db)
  | _ => (Raise e, db)
  end.

Definition create_user (ev : storage_event) (now : timestamp)
    (username password_hash role : string) (db : database)
  : outcome bool * database :=
  match ev with
  | FailConnect e => (Raise e, db)
  | FailExecute e => except_IntegrityError db e
  | FailCommit e => except_IntegrityError db e
  | Healthy =>
      match insert_user now username password_hash role (users db) with
      | Ret t => (Ret true, with_users db t)
      | Raise e => except_IntegrityError db e
      end
  end.

(** The dict [get_user] returns. *)
Record user_dict : Type := mkuser
  { username : string;
    password_hash : string;
    role : string }.

Definition user_dict_of (r : User.row) : user_dict :=
  mkuser (User.username r) (User.password_hash r) (User.role r).

(** [get_user] has a [finally] and no [except]; it never commits. *)
Definition get_user (ev : storage_event) (username : string) (db : database)
  : outcome (option user_dict) :=
  match ev with
  | FailConnect e => Raise e
  | FailExecute e => Raise e
  | FailCommit _ | Healthy =>
      Ret (option_map user_dict_of
             (fetchone_where (has_username username) (users db)))
  end.

(** *** init_database *)

(** The salts drawn by the four [bcrypt.gensalt()] calls of one run. *)
Record seed_salts : Type := mksalts
  { salt_admin : string;
    salt_cyber : string;
    salt_data : string;
    salt_it : string }.

Section WithBcrypt.
Context {B : Bcrypt}.

Definition default_users (s : seed_salts) : list (string * string * string) :=
  [ ("admin", hashpw "admin123" (salt_admin s), "admin");
    ("cyber", hashpw "cyber123" (salt_cyber s), "cybersecurity");
    ("data", hashpw "data123" (salt_data s), "data_science");
    ("it", hashpw "it123" (salt_it s), "it_operations") ].

(** One turn of [for username, hashed_pw, role in default_users]. *)
Definition seed_user (now : timestamp) (acc : outcome (list User.row))
    (u : string * string * string) : outcome (list User.row) :=
  let '(username, hashed_pw, role) := u in
  match acc with
  | Raise e => Raise e
  | Ret t =>
      if count_where (has_username username) t =? 0
      then insert_user now username hashed_pw role t
      else Ret t
  end.

(** A table that does not exist yet and an empty table are the same list,
    so the four [CREATE TABLE IF NOT EXISTS] leave the state as it is. *)
Definition init_database (ev : storage_event) (now : timestamp)
    (salts : seed_salts) (db : database) : outcome unit * database :=
  match ev with
  | FailConnect e => (Raise e, db)
  | FailExecute e => (Raise e, db)
  | FailCommit e => (Raise e, db)
  | Healthy =>
      match fold_left (seed_user now) (default_users salts) (Ret (users db)) with
      | Ret t => (Ret tt, with_users db t)
      | Raise e => (Raise e, db)
      end
  end.

End WithBcrypt.

(** *** get_statistics *)

Record statistics : Type := mkstats
  { user_count : Z;
    total_incidents : Z;
    open_incidents : Z;
    total_datasets : Z;
    avg_quality : Q;
    total_tickets : Z;
    open_tickets : Z }.

(** [AVG(col)]: the mean of the values that are not NULL, NULL if there
    is none. *)
Definition sql_avg {Sq : SqlReal} (col : list (option Q)) : option Q :=
  match flat_map (fun v => match v with Some q => [q] | None => [] end) col with
  | [] => None
  | q :: qs => Some (real_avg q qs)
  end.

Definition coalesce (v : option Q) (d : Q) : Q :=
  match v with Some q => q | None => d end.

Definition incident_is_open (r : Incident.row) : bool :=
  (Incident.status r =? "Open")%string.
Definition ticket_is_open (r : Ticket.row) : bool :=
  (Ticket.status r =? "Open")%string.

(** No [try] at all: whatever the engine raises leaves the method. *)
Definition get_statistics {Sq : SqlReal} (ev : storage_event) (db : database)
  : outcome statistics :=
  match ev with
  | FailConnect e => Raise e
  | FailExecute e => Raise e
  | FailCommit _ | Healthy =>
      Ret {| user_count := count_where (fun _ => true) (users db);
             total_incidents := count_where (fun _ => true) (cyber_incidents db);
             open_incidents := count_where incident_is_open (cyber_incidents db);
             total_datasets := count_where (fun _ => true) (datasets_metadata db);
             avg_quality :=
               coalesce (sql_avg (map Dataset.quality_score (datasets_metadata db))) 0%Q;
             total_tickets := count_where (fun _ => true) (it_tickets db);
             open_tickets := count_where ticket_is_open (it_tickets db) |}
  end.

(** *** Histories of calls *)

(** One call [update_incident_status(incident_id, status)] together with
    the clock reading and the engine's behaviour during it. *)
Record status_call : Type := mkcall
  { call_event : storage_event;
    call_now : timestamp;
    call_id : Z;
    call_status : string }.

Definition apply_status_call {Sq : SqlReal} (db : database) (c : status_call)
  : database :=
  snd (update_incident_status (call_event c) (call_now c) (call_id c)
         (call_status c) db).

Definition run_status_calls {Sq : SqlReal} (cs : list status_call)
    (db : database) : database :=
  fold_left apply_status_call cs db.

(** The call reaches the row [incident_id] as a transition to Resolved. *)
Definition resolves (incident_id : Z) (c : status_call) : bool :=
  is_healthy (call_event c) && (call_id c =? incident_id)
  && (call_status c =? "Resolved")%string.

(** Hours from [created_at] to [now], as the UPDATE computes them. *)
Definition elapsed_hours {Sq : SqlReal} (created_at now : timestamp) : Q :=
  real_times (real_minus (julianday now) (julianday created_at)) 24.

Definition find_incident (incident_id : Z) (db : database) : option Incident.row :=
  fetchone_where (has_incident_id incident_id) (cyber_incidents db).

Definition find_ticket (ticket_id : Z) (db : database) : option Ticket.row :=
  fetchone_where (has_ticket_id ticket_id) (it_tickets db).

(** One run of [init_database] with its clock, salts and engine behaviour. *)
Record init_call : Type := mkinit
  { init_event : storage_event;
    init_now : timestamp;
    init_salts : seed_salts }.

Definition run_init_calls {B : Bcrypt} (cs : list init_call) (db : database)
  : database :=
  fold_left (fun db c =>
               snd (init_database (init_event c) (init_now c) (init_salts c) db))
            cs db.

(** The username of an entry of [default_users]. *)
Definition seed_name (u : string * string * string) : string := fst (fst u).

(** The row the INSERT of [init_database] writes for a default user. *)
Definition seed_row (now : timestamp) (u : string * string * string) : User.row :=
  let '(username, hashed_pw, role) := u in User.mk username hashed_pw role now.

(** [SELECT COUNT( * ) FROM users WHERE username = ?] gives 0. *)
Definition is_missing (t : list User.row) (u : string * string * string) : bool :=
  let '(username, _, _) := u in count_where (has_username username) t =? 0.

(** The rows one run has to add: the default users whose username the
    table lacks, in the order of [default_users]. *)
Definition missing_defaults {B : Bcrypt} (now : timestamp) (salts : seed_salts)
    (db : database) : list User.row :=
  map (seed_row now) (filter (is_missing (users db)) (default_users salts)).

(** The primary key of [users]. *)
Definition users_pk (db : database) : Prop :=
  NoDup (map User.username (users db)).

Definition default_usernames : list string := ["admin"; "cyber"; "data"; "it"].

Definition find_dataset (dataset_id : Z) (db : database) : option Dataset.row :=
  fetchone_where (has_dataset_id dataset_id) (datasets_metadata db).

(** *** create_cyber_incident, create_it_ticket *)

(** The dict [data] of [create_cyber_incident].  The keys the method
    subscripts are fields of the column's type; a key it reads with [.get]
    may be absent, which reads as None like a None value. *)
Module IncidentData.
Record dict : Type := mk
  { title : string;
    description : option string;
    threat_type : string;
    severity : string;
    status : string;
    created_at : time_text;
    resolved_at : option timestamp;
    resolution_time_hours : option Q;
    assigned_to : option string }.
End IncidentData.

(** The dict [data] of [create_it_ticket].  For [priority] the method
    uses [data.get('priority', 'Medium')]: an absent key ([None] here) and
    a key that is present with value None ([Some None]) differ. *)
Module TicketData.
Record dict : Type := mk
  { title : string;
    description : option string;
    status : string;
    assigned_to : string;
    current_stage : string;
    priority : option (option string);
    created_at : timestamp;
    resolved_at : option timestamp;
    time_in_stage_hours : option Q;
    category : option string }.
End TicketData.

(** The [seq] column of [sqlite_sequence], which SQLite keeps for the
    AUTOINCREMENT tables: the largest rowid each table has ever held. *)
Record sequences : Type := mkseq
  { seq_incidents : Z;
    seq_datasets : Z;
    seq_tickets : Z }.

(** The database file: the four tables and [sqlite_sequence]. *)
Record store : Type := mkstore
  { tables : database;
    sqlite_sequence : sequences }.

Definition empty_store : store := mkstore empty_db (mkseq 0 0 0).

(** The largest rowid SQLite can store. *)
Definition max_rowid : Z := 9223372036854775807.

(** [INTEGER PRIMARY KEY AUTOINCREMENT]: one more than the largest rowid
    the table holds or has ever held. *)
Definition next_rowid (ids : list Z) (seq : Z) : Z :=
  Z.max (fold_right Z.max 0 ids) seq + 1.

Definition incident_of_data (incident_id : Z) (data : IncidentData.dict)
  : Incident.row :=
  Incident.mk incident_id (IncidentData.title data)
    (IncidentData.description data) (IncidentData.threat_type data)
    (IncidentData.severity data) (IncidentData.status data)
    (IncidentData.created_at data) (IncidentData.resolved_at data)
    (IncidentData.resolution_time_hours data) (IncidentData.assigned_to data).

(** No [try]: an exception leaves the method, and nothing was committed.
    Once the largest rowid has been used the INSERT fails with SQLITE_FULL. *)
Definition create_cyber_incident (ev : storage_event) (data : IncidentData.dict)
    (st : store) : outcome Z * store :=
  match ev with
  | FailConnect e => (Raise e, st)
  | FailExecute e => (Raise e, st)
  | FailCommit e => (Raise e, st)
  | Healthy =>
      let db := tables st in
      let seq := sqlite_sequence st in
      let incident_id :=
        next_rowid (map Incident.id (cyber_incidents db)) (seq_incidents seq) in
      if max_rowid <? incident_id
      then (Raise (OperationalError "database or disk is full"), st)
      else (Ret incident_id,
            mkstore
              (with_incidents db
                 (cyber_incidents db ++ [incident_of_data incident_id data])%list)
              (mkseq incident_id (seq_datasets seq) (seq_tickets seq)))
  end.



(** A method that works on the tables alone, run on the database file:
    UPDATE and DELETE leave [sqlite_sequence] as it is. *)
Definition on_tables {A : Type} (method : database -> A * database) (st : store)
  : A * store :=
  let '(a, db') := method (tables st) in (a, mkstore db' (sqlite_sequence st)).

(** One call of a method that writes the incidents table. *)
Inductive incident_call : Type :=
| CallCreate (ev : storage_event) (data : IncidentData.dict)
| CallUpdateStatus (ev : storage_event) (now : timestamp) (incident_id : Z)
    (status : string)
| CallDelete (ev : storage_event) (incident_id : Z).

Definition apply_incident_call {Sq : SqlReal} (st : store) (c : incident_call)
  : store :=
  match c with
  | CallCreate ev data => snd (create_cyber_incident ev data st)
  | CallUpdateStatus ev now incident_id status =>
      snd (on_tables (update_incident_status ev now incident_id status) st)
  | CallDelete ev incident_id =>
      snd (on_tables (delete_incident ev incident_id) st)
  end.

Definition run_incident_calls {Sq : SqlReal} (cs : list incident_call)
    (st : store) : store :=
  fold_left apply_incident_call cs st.

(** [id] is a key of the incidents table and [sqlite_sequence] is not
    behind it. *)
Definition incident_ids_ok (st : store) : Prop :=
  NoDup (map Incident.id (cyber_incidents (tables st)))
  /\ forall i, In i (map Incident.id (cyber_incidents (tables st))) ->
               i <= seq_incidents (sqlite_sequence st).

End Db.

(* ================================================================== *)
(** ** src/auth/authentication.py *)

Module Auth.
Section WithBcrypt.
Context {B : Bcrypt}.

Definition hash_password (salt : string) (password : string) : string :=
  hashpw password salt.

(** [try: return bcrypt.checkpw(...)  except Exception: return False] *)
Definition verify_password (password hashed : string) : bool :=
  match checkpw password hashed with
  | Ret b => b
  | Raise _ => false
  end.

(** The body of the [try] in [register_user]; [ev_get] and [ev_create]
    are the engine's behaviour during [get_user] and [create_user]. *)
Definition register_user_try (ev_get ev_create : Db.storage_event)
    (now : timestamp) (salt : string) (username password role : string)
    (db : Db.database) : outcome bool * Db.database :=
  match Db.get_user ev_get username db with
  | Raise e => (Raise e, db)
  | Ret (Some _) => (Ret false, db)
  | Ret None =>
      let hashed_pw := hash_password salt password in
      match Db.create_user ev_create now username hashed_pw role db with
      | (Ret true, db') => (Ret true, db')
      | (Ret false, db') => (Ret false, db')
      | (Raise e, db') => (Raise e, db')
      end
  end.

(** [except Exception as e: st.error(...); return False] *)
Definition register_user (ev_get ev_create : Db.storage_event)
    (now : timestamp) (salt : string) (username password role : string)
    (db : Db.database) : outcome bool * Db.database :=
  match register_user_try ev_get ev_create now salt username password role db with
  | (Ret b, db') => (Ret b, db')
  | (Raise _, db') => (Ret false, db')
  end.

Definition login_user (ev : Db.storage_event) (username password : string)
    (db : Db.database) : outcome (option Db.user_dict) :=
  match Db.get_user ev username db with
  | Raise _ => Ret None
  | Ret None => Ret None
  | Ret (Some user) =>
      if verify_password password (Db.password_hash user)
      then Ret (Some user) else Ret None
  end.

End WithBcrypt.
End Auth.

(* ================================================================== *)
(** ** src/main.py *)

Module Main.

(** The entries of the sidebar radio, [selected_dashboard]. *)
Inductive nav_option : Type :=
| ExecutiveDashboard    (* "Executive Dashboard" *)
| Cybersecurity         (* "Cybersecurity" *)
| DataScience           (* "Data Science" *)
| ITOperations          (* "IT Operations" *)
| AIAssistant.          (* "AI Assistant" *)

(** What the main content area shows. *)
Inductive content : Type :=
| Display (d : nav_option)      (* the dashboard's [display()] runs *)
| NoPermission (d : nav_option). (* [st.error("You don't have permission ...")] *)

(** [user_role in [...]] *)
Definition role_in (user_role : string) (roles : list string) : bool :=
  existsb (String.eqb user_role) roles.

(** The list the sidebar offers, lines 135-152. *)
Definition dashboard_options (user_role : string) : list nav_option :=
  ([ExecutiveDashboard]
   ++ (if (user_role =? "admin")%string
       then [Cybersecurity; DataScience; ITOperations]
       else (if (user_role =? "cybersecurity")%string then [Cybersecurity] else [])
            ++ (if (user_role =? "data_science")%string then [DataScience] else [])
            ++ (if (user_role =? "it_operations")%string then [ITOperations] else []))
   ++ [AIAssistant])%list.

(** The [if]/[elif] chain of the main content area, lines 194-222. *)
Definition show_selected (user_role : string) (selected_dashboard : nav_option)
  : content :=
  match selected_dashboard with
  | ExecutiveDashboard => Display ExecutiveDashboard
  | Cybersecurity =>
      if role_in user_role ["admin"; "cybersecurity"]
      then Display Cybersecurity else NoPermission Cybersecurity
  | DataScience =>
      if role_in user_role ["admin"; "data_science"]
      then Display DataScience else NoPermission DataScience
  | ITOperations =>
      if role_in user_role ["admin"; "it_operations"]
      then Display ITOperations else NoPermission ITOperations
  | AIAssistant => Display AIAssistant
  end.

Definition is_displayed (c : content) : bool :=
  match c with Display _ => true | NoPermission _ => false end.

(** The key under which [DASHBOARD_PERMISSIONS] lists each dashboard. *)
Definition dashboard_key (d : nav_option) : string :=
  match d with
  | ExecutiveDashboard => "executive"
  | Cybersecurity => "cybersecurity"
  | DataScience => "data_science"
  | ITOperations => "it_operations"
  | AIAssistant => "ai_assistant"
  end.

(** The lookup the specification calls [allowed_dashboards(role)]:
    [DASHBOARD_PERMISSIONS.get(role, [])].  No function of the sources
    reads the table; the lookup is written out here so that the table can
    be compared with [show_selected]. *)
Definition allowed_dashboards (user_role : string) : list string :=
  match find (fun entry => (fst entry =? user_role)%string)
             Config.DASHBOARD_PERMISSIONS with
  | Some entry => snd entry
  | None => []
  end.

(** The specification's [authorize(role, dashboard_id)], by the table. *)
Definition authorize (user_role dashboard_id : string) : bool :=
  existsb (String.eqb dashboard_id) (allowed_dashboards user_role).

Definition known_roles : list string :=
  map fst Config.DASHBOARD_PERMISSIONS.

End Main.

(* ================================================================== *)
(** ** src/main.py: one run of the script *)

Module App.

(** The keys of [st.session_state] that [main] sets, lines 46-50. *)
Record session_state : Type := mksession
  { authenticated : bool;
    user_role : option string;
    username : option string;
    dark_mode : bool }.

Definition fresh_session : session_state := mksession false None None true.

(** The options of the "Select Role" box of the registration form. *)
Inductive role_option : Type :=
| RoleAdmin
| RoleCybersecurity
| RoleDataScience
| RoleITOperations.

Definition role_text (r : role_option) : string :=
  match r with
  | RoleAdmin => "admin"
  | RoleCybersecurity => "cybersecurity"
  | RoleDataScience => "data_science"
  | RoleITOperations => "it_operations"
  end.

(** The widget whose use started the run.  The login and the registration
    form belong to the login page; the theme toggle and the logout button
    belong to the sidebar of the main application. *)
Inductive interaction : Type :=
| NoInteraction
| SubmitLogin (username password : string)
| SubmitRegister (new_username new_password confirm_password : string)
    (role : role_option)
| ToggleDarkMode (dark_mode : bool)
| ClickLogout.

(** What the run meets outside the script: the run of [init_database]
    that [DatabaseManager()] makes, the engine's behaviour during
    [get_user] and [create_user], the clock and the salt. *)
Record run_env : Type := mkenv
  { env_init : Db.init_call;
    env_get : Db.storage_event;
    env_create : Db.storage_event;
    env_now : timestamp;
    env_salt : string }.

(** How the run ends. *)
Inductive page : Type :=
| LoginPage                      (* the login page was drawn *)
| MainPage (c : Main.content)    (* sidebar and main content were drawn *)
| Rerun                          (* [st.rerun()] stopped the run *)
| Crash (e : exn)                (* [init_database] raised *)
| CrashNoRole.                   (* [user_role.replace] on None *)

(** Truth value of a Python string. *)
Definition nonempty (s : string) : bool := negb (s =? "")%string.

Section WithBcrypt.
Context {B : Bcrypt}.

(** [show_login_page], lines 68-122. *)
Definition show_login_page (env : run_env) (i : interaction)
    (s : session_state) (db : Db.database)
  : page * session_state * Db.database :=
  match i with
  | SubmitLogin username password =>
      if nonempty username && nonempty password
      then match Auth.login_user (env_get env) username password db with
           | Ret (Some user) =>
               (Rerun,
                mksession true (Some (Db.role user)) (Some username) (dark_mode s),
                db)
           | _ => (LoginPage, s, db)
           end
      else (LoginPage, s, db)
  | SubmitRegister new_username new_password confirm_password role =>
      if nonempty new_username && nonempty new_password
      then if (new_password =? confirm_password)%string
           then let '(_, db') :=
                  Auth.register_user (env_get env) (env_create env) (env_now env)
                    (env_salt env) new_username new_password (role_text role) db in
                (LoginPage, s, db')
           else (LoginPage, s, db)
      else (LoginPage, s, db)
  | _ => (LoginPage, s, db)
  end.

(** The sidebar and the main content of [show_main_application], lines
    124-226.  The statistics block only reads the store, inside a [try]. *)
Definition show_main_application (selected_dashboard : Main.nav_option)
    (i : interaction) (s : session_state) (db : Db.database)
  : page * session_state * Db.database :=
  match user_role s with
  | None => (CrashNoRole, s, db)
  | Some role =>
      match i with
      | ToggleDarkMode dark =>
          if Bool.eqb dark (dark_mode s)
          then (MainPage (Main.show_selected role selected_dashboard), s, db)
          else (Rerun,
                mksession (authenticated s) (user_role s) (username s) dark,
                db)
      | ClickLogout => (Rerun, mksession false None None (dark_mode s), db)
      | _ => (MainPage (Main.show_selected role selected_dashboard), s, db)
      end
  end.

(** [main], lines 24-66; [state] is [None] in a browser session that has
    not run the script yet. *)
Definition main (env : run_env) (selected_dashboard : Main.nav_option)
    (i : interaction) (state : option session_state) (db : Db.database)
  : page * session_state * Db.database :=
  let s := match state with None => fresh_session | Some s => s end in
  match Db.init_database (Db.init_event (env_init env))
          (Db.init_now (env_init env)) (Db.init_salts (env_init env)) db with
  | (Raise e, db') => (Crash e, s, db')
  | (Ret _, db') =>
      if authenticated s
      then show_main_application selected_dashboard i s db'
      else show_login_page env i s db'
  end.

(** What happens to a browser session and the store over time: runs of
    the script, and in between the writes that the dashboards make, of
    which only this is kept: they leave the incidents, datasets and
    tickets tables in some state and never touch [users]. *)
Inductive app_event : Type :=
| ScriptRun (env : run_env) (selected_dashboard : Main.nav_option)
    (i : interaction)
| DashboardWrites (incidents : list Incident.row) (datasets : list Dataset.row)
    (tickets : list Ticket.row).

Definition apply_app_event (st : option session_state * Db.database)
    (ev : app_event) : option session_state * Db.database :=
  match ev with
  | ScriptRun env selected_dashboard i =>
      let '(_, s, db) := main env selected_dashboard i (fst st) (snd st) in
      (Some s, db)
  | DashboardWrites incidents datasets tickets =>
      (fst st, Db.mkdb (Db.users (snd st)) incidents datasets tickets)
  end.

Definition run_app_events (evs : list app_event)
    (st : option session_state * Db.database)
  : option session_state * Db.database :=
  fold_left apply_app_event evs st.

End WithBcrypt.

(** The session is anonymous with no role and no name, or is logged in
    under a name whose row in [users] carries the session's role. *)
Definition session_ok (s : session_state) (db : Db.database) : Prop :=
  if authenticated s
  then exists name role row,
         username s = Some name /\ user_role s = Some role
         /\ fetchone_where (Db.has_username name) (Db.users db) = Some row
         /\ User.role row = role
  else user_role s = None /\ username s = None.

(** The users table after some steps: what it was, followed by rows
    whose roles are roles of the table. *)
Definition users_grew (db db' : Db.database) : Prop :=
  exists extra,
    Db.users db' = (Db.users db ++ extra)%list
    /\ Forall (fun r => In (User.role r) Main.known_roles) extra.

(** [session_ok] once the script has run in the browser session. *)
Definition state_ok (st : option session_state * Db.database) : Prop :=
  match fst st with
  | Some s => session_ok s (snd st)
  | None => True
  end.

Definition roles_known (db : Db.database) : Prop :=
  Forall (fun r => In (User.role r) Main.known_roles) (Db.users db).

End App.

(* ================================================================== *)
(** ** src/utils/data_import.py *)

Module DataImport.

(** A value of a row of the uploaded table: missing (NaN or None), a
    string, or something else, of which only what [str()] prints matters
    here; a value that is not a string is never found in a list of
    strings. *)
Inductive cell : Type :=
| Missing
| Text (s : string)
| Other (shown : string).

(** [row.to_dict()]: the cell under each column name. *)
Definition row_dict : Type := string -> option cell.

(** [str(v)] for a value that is not missing. *)
Definition cell_str (v : cell) : string :=
  match v with
  | Missing => "nan"
  | Text s => s
  | Other shown => shown
  end.

(** [v not in valid]: only a string can be in the list. *)
Definition not_in (v : cell) (valid : list string) : bool :=
  match v with
  | Text s => negb (existsb (String.eqb s) valid)
  | _ => true
  end.

Section WithStrip.
(** Python's [str.strip()]. *)
Variable strip : string -> string.

(** [field not in row or pd.isna(row.get(field))
     or str(row[field]).strip() == ''] *)
Definition field_missing (row : row_dict) (field : string) : bool :=
  match row field with
  | None => true
  | Some Missing => true
  | Some v => (strip (cell_str v) =? "")%string
  end.

(** The loop over [required_fields], with its early return. *)
Fixpoint first_missing (row : row_dict) (required_fields : list string)
  : option string :=
  match required_fields with
  | [] => None
  | field :: rest =>
      if field_missing row field
      then Some ("Missing required field: " ++ field)
      else first_missing row rest
  end.

(** [row[field]], once the loop has found the field present. *)
Definition subscript (row : row_dict) (field : string) : cell :=
  match row field with
  | Some v => v
  | None => Missing
  end.

Definition validate_cyber_incident_row (row : row_dict) : bool * option string :=
  match first_missing row ["title"; "threat_type"; "severity"; "status"] with
  | Some error => (false, Some error)
  | None =>
      if not_in (subscript row "severity") ["Low"; "Medium"; "High"; "Critical"]
      then (false,
            Some ("Invalid severity: " ++ cell_str (subscript row "severity")
                  ++ ". Must be one of ['Low', 'Medium', 'High', 'Critical']"))
      else if not_in (subscript row "status")
                ["Open"; "In Progress"; "Resolved"; "Closed"]
      then (false,
            Some ("Invalid status: " ++ cell_str (subscript row "status")
                  ++ ". Must be one of ['Open', 'In Progress', 'Resolved', 'Closed']"))
      else (true, None)
  end.

Definition validate_it_ticket_row (row : row_dict) : bool * option string :=
  match first_missing row ["title"; "status"; "assigned_to"; "current_stage"] with
  | Some error => (false, Some error)
  | None =>
      if not_in (subscript row "status")
           ["Open"; "In Progress"; "Pending"; "Resolved"; "Closed"]
      then (false,
            Some ("Invalid status: " ++ cell_str (subscript row "status")
                  ++ ". Must be one of ['Open', 'In Progress', 'Pending', 'Resolved', 'Closed']"))
      else (true, None)
  end.

End WithStrip.

End DataImport.

(* ================================================================== *)
(** ** Concrete data on which the definitions are run *)

Module Sample.

(** A stand-in for the package with the one property the sources rely on:
    the hash carries its salt in front of a digest, and checking recomputes
    the hash from the salt it carries.  Salts are four characters long and
    the "digest" is the password itself. *)
Definition toy_bcrypt : Bcrypt :=
  {| hashpw := fun password salt => salt ++ password;
     checkpw := fun password hashed =>
       if (String.length hashed <? 4)%nat
       then Raise (ValueError "Invalid salt")
       else Ret (hashed =? substring 0 4 hashed ++ password)%string |}.

(** Exact arithmetic as a stand-in for SQLite's floating point. *)
Definition exact_real : SqlReal :=
  {| julianday := fun t => ((4881175 # 2) + inject_Z t / inject_Z 86400)%Q;
     real_minus := Qminus;
     real_times := Qmult;
     real_avg := fun q qs =>
       (fold_right Qplus 0 (q :: qs) / inject_Z (Z.of_nat (length (q :: qs))))%Q |}.

Definition salts_a : Db.seed_salts := Db.mksalts "a001" "a002" "a003" "a004".
Definition salts_b : Db.seed_salts := Db.mksalts "b001" "b002" "b003" "b004".

Definition locked : exn := OperationalError "database is locked".

(** An open incident created at second 1000. *)
Definition phishing : Incident.row :=
  Incident.mk 1 "Phishing wave" (Some "Mail to finance") "Phishing" "High"
    "Open" (Readable 1000) None None (Some "analyst").

(** The same incident, resolved at second 8200, two hours after creation. *)
Definition phishing_resolved : Incident.row :=
  Incident.mk 1 "Phishing wave" (Some "Mail to finance") "Phishing" "High"
    "Resolved" (Readable 1000) (Some 8200) (Some (2 # 1)) (Some "analyst").

(** A ticket resolved at second 5000. *)
Definition printer : Ticket.row :=
  Ticket.mk 7 "Printer offline" None "Resolved" "helpdesk" "Resolved"
    (Some "Medium") 1000 (Some 5000) None (Some "Hardware").

Definition survey : Dataset.row :=
  Dataset.mk 3 "Survey 2024" "Marketing" (12 # 1) 400 9 (Some (7 # 1)) None
    (Some 900) (Some "Low").

Definition store : Db.database :=
  Db.mkdb [] [phishing] [survey] [printer].

Definition store_resolved : Db.database :=
  Db.mkdb [] [phishing_resolved] [survey] [printer].

(** A user table in which only one default username is present, under a
    password hash and a role that are not the defaults. *)
Definition partly_seeded : Db.database :=
  Db.mkdb [User.mk "data" "zzzzchanged" "admin" 50;
           User.mk "bob" "yyyybob" "it_operations" 60] [] [] [].

(** The store after ["alice"] registered with password ["pw1"], salt
    ["s001"] and role admin at second 10, under [toy_bcrypt]. *)
Definition alice_registered : Db.database :=
  Db.mkdb [User.mk "alice" "s001pw1" "admin" 10] [] [] [].

(** Three further runs of the initialization, the second one with the
    database locked. *)
Definition further_runs : list Db.init_call :=
  [ Db.mkinit Db.Healthy 200 salts_b;
    Db.mkinit (Db.FailExecute locked) 300 salts_a;
    Db.mkinit Db.Healthy 400 salts_b ].

(** A store with a deleted row behind it: incident 1 is there, the
    sequence has reached 5. *)
Definition file_with_history : Db.store :=
  Db.mkstore store (Db.mkseq 5 3 7).

Definition malware_report : Db.IncidentData.dict :=
  Db.IncidentData.mk "Malware on laptop" None "Malware" "Critical" "Open"
    (Readable 9000) None None None.


Definition quiet_env : App.run_env :=
  App.mkenv (Db.mkinit Db.Healthy 100 salts_a) Db.Healthy Db.Healthy 100 "s001".

(** A browser session in which alice registers as a cybersecurity user
    and logs in, and an incident is written in between. *)
Definition alice_session : list App.app_event :=
  [ App.ScriptRun quiet_env Main.ExecutiveDashboard
      (App.SubmitRegister "alice" "pw1" "pw1" App.RoleCybersecurity);
    App.DashboardWrites [phishing] [] [];
    App.ScriptRun quiet_env Main.ExecutiveDashboard
      (App.SubmitLogin "alice" "pw1") ].

(** A stand-in for [str.strip()] that empties a single blank and leaves
    every other string as it is. *)
Definition strip_blank (s : string) : string :=
  if (s =? " ")%string then "" else s.

Definition csv_row : DataImport.row_dict :=
  fun column =>
    if (column =? "title")%string then Some (DataImport.Text "Phishing wave")
    else if (column =? "threat_type")%string then Some (DataImport.Text "Phishing")
    else if (column =? "severity")%string then Some (DataImport.Text "High")
    else if (column =? "status")%string then Some (DataImport.Text "Closed")
    else if (column =? "assigned_to")%string then Some (DataImport.Text "analyst")
    else if (column =? "current_stage")%string then Some (DataImport.Text "New")
    else if (column =? "description")%string then Some DataImport.Missing
    else None.

(** An incident as a CSV import creates it: open, with a resolution time
    of 24 hours given in the file. *)
Definition imported_report : Db.IncidentData.dict :=
  Db.IncidentData.mk "DDoS attempt" (Some "Web servers") "DDoS" "Medium"
    "Open" (Readable 1000) None (Some (24 # 1)) (Some "network").

(** An imported incident whose [created_at] SQLite cannot read. *)
Definition undated : Incident.row :=
  Incident.mk 2 "Brute force" None "Brute Force" "Low" "Open"
    (Unreadable "11/03/2026") None None None.

Definition store_undated : Db.database :=
  Db.mkdb [] [undated] [] [].

(** A dataset that has no quality score yet. *)
Definition archive : Dataset.row :=
  Dataset.mk 4 "Archive 2019" "Finance" (80 # 1) 12000 14 None None
    (Some 950) (Some "High").

Definition store_unscored : Db.database :=
  Db.mkdb [] [] [archive] [].

End Sample.

(** The examples on concrete data below compute with [Sample.exact_real]. *)
#[global] Existing Instance Sample.exact_real.

(* ================================================================== *)
(** * Properties *)

(** ** Statements over a table *)

Section TableFacts.
Context {R : Type}.
Implicit Types (p q : R -> bool) (f : R -> R) (t : list R).

Lemma count_where_nonneg p t : 0 <= count_where p t.
Proof. unfold count_where. lia. Qed.

Lemma count_where_app p t1 t2 :
  count_where p (t1 ++ t2) = count_where p t1 + count_where p t2.
Proof.
  unfold count_where. rewrite filter_app, length_app. lia.
Qed.

Lemma count_where_absent p t :
  (forall r, In r t -> p r = false) -> count_where p t = 0.
Proof.
  unfold count_where. induction t as [|a t IH]; intros H; simpl; [reflexivity|].
  rewrite (H a (or_introl eq_refl)). apply IH. intros r Hr. apply H. now right.
Qed.

Lemma count_where_present p t r :
  In r t -> p r = true -> 0 < count_where p t.
Proof.
  unfold count_where. induction t as [|a t IH]; simpl; intros Hin Hp; [contradiction|].
  destruct Hin as [->|Hin].
  - rewrite Hp. simpl. lia.
  - destruct (p a); simpl; [lia|]. now apply IH.
Qed.

Lemma update_where_absent p f t :
  (forall r, In r t -> p r = false) -> update_where p f t = (t, 0).
Proof.
  intros H. unfold update_where. rewrite (count_where_absent _ _ H). f_equal.
  induction t as [|a t IH]; simpl; [reflexivity|].
  rewrite (H a (or_introl eq_refl)). f_equal. apply IH.
  intros r Hr. apply H. now right.
Qed.

(** A SET clause that keeps the column [q] tests does not move the first
    row that satisfies [q]. *)
Lemma fetchone_update_where p q f t :
  (forall r, q (f r) = q r) ->
  fetchone_where q (fst (update_where p f t))
  = option_map (fun r => if p r then f r else r) (fetchone_where q t).
Proof.
  intros Hq. unfold fetchone_where, update_where. simpl.
  induction t as [|a t IH]; simpl; [reflexivity|].
  destruct (p a) eqn:Hp; [rewrite Hq|]; destruct (q a); simpl;
    rewrite ?Hp; auto.
Qed.

End TableFacts.

(** ** Elapsed time *)

(** In exact arithmetic the hours are the seconds between the two times
    over 3600. *)
Lemma elapsed_hours_seconds (created_at now : timestamp) :
  (@Db.elapsed_hours Sample.exact_real created_at now
   == inject_Z (now - created_at) / 3600)%Q.
Proof.
  cbv [Db.elapsed_hours julianday real_minus real_times Sample.exact_real].
  unfold Z.sub.
  rewrite inject_Z_plus, inject_Z_opp.
  change (inject_Z 86400) with (86400 # 1)%Q. field.
Qed.

Example two_hours_after_creation :
  (Db.elapsed_hours 1000%Z 8200%Z == 2)%Q.
Proof. reflexivity. Qed.

(** ** Status updates of incidents and tickets *)

Example resolve_open_incident :
  option_map (fun r => (Incident.status r, Incident.resolved_at r))
    (Db.find_incident 1
       (snd (Db.update_incident_status Db.Healthy 8200 1 "Resolved" Sample.store)))
  = Some ("Resolved", Some 8200).
Proof. reflexivity. Qed.

Example delete_known_and_unknown_ticket :
  Db.delete_it_ticket Db.Healthy 7 Sample.store
  = (Ret true, Db.with_tickets Sample.store [])
  /\ Db.delete_it_ticket Db.Healthy 8 Sample.store = (Ret false, Sample.store).
Proof. split; reflexivity. Qed.

Example statistics_of_sample_store :
  Db.get_statistics Db.Healthy Sample.store
  = Ret (Db.mkstats 0 1 1 1 (7 / 1)%Q 1 0).
Proof. reflexivity. Qed.

Lemma find_incident_id (i : Z) (db : Db.database) (r : Incident.row) :
  Db.find_incident i db = Some r -> Incident.id r = i.
Proof.
  unfold Db.find_incident, fetchone_where. intros H.
  apply find_some in H. destruct H as [_ H].
  unfold Db.has_incident_id in H. lia.
Qed.

Lemma find_ticket_id (i : Z) (db : Db.database) (r : Ticket.row) :
  Db.find_ticket i db = Some r -> Ticket.id r = i.
Proof.
  unfold Db.find_ticket, fetchone_where. intros H.
  apply find_some in H. destruct H as [_ H].
  unfold Db.has_ticket_id in H. lia.
Qed.

(** The row a call leaves under an id: rewritten by the SET clause when
    the call is healthy and aims at that id, untouched otherwise. *)
Lemma find_incident_after_update {Sq : SqlReal} ev now j status i db r :
  Db.find_incident i db = Some r ->
  Db.find_incident i (snd (Db.update_incident_status ev now j status db))
  = Some (if Db.is_healthy ev && (j =? i)
          then Db.incident_set_status now status r else r).
Proof.
  intros Hr. destruct ev; simpl; try exact Hr.
  unfold Db.find_incident in *.
  pose proof (fetchone_update_where (Db.has_incident_id j) (Db.has_incident_id i)
                (Db.incident_set_status now status) (Db.cyber_incidents db)) as H.
  simpl in H. simpl. rewrite H by reflexivity. rewrite Hr. simpl.
  apply (find_incident_id i db) in Hr. unfold Db.has_incident_id.
  rewrite Hr, Z.eqb_sym. reflexivity.
Qed.

Lemma find_ticket_after_update now j status stage i db r :
  Db.find_ticket i db = Some r ->
  Db.find_ticket i (snd (Db.update_ticket_status Db.Healthy now j status stage db))
  = Some (if j =? i then Db.ticket_set_status now status stage r else r).
Proof.
  intros Hr. unfold Db.find_ticket in *.
  pose proof (fetchone_update_where (Db.has_ticket_id j) (Db.has_ticket_id i)
                (Db.ticket_set_status now status stage) (Db.it_tickets db)) as H.
  simpl in H. simpl. rewrite H by reflexivity. rewrite Hr. simpl.
  apply (find_ticket_id i db) in Hr. unfold Db.has_ticket_id.
  rewrite Hr, Z.eqb_sym. reflexivity.
Qed.

Lemma incident_absent_no_match i (t : list Incident.row) :
  ~ In i (map Incident.id t) ->
  forall r, In r t -> Db.has_incident_id i r = false.
Proof.
  intros H r Hr. unfold Db.has_incident_id. apply Z.eqb_neq. intros E.
  apply H. rewrite <- E. now apply in_map.
Qed.

Lemma ticket_absent_no_match i (t : list Ticket.row) :
  ~ In i (map Ticket.id t) ->
  forall r, In r t -> Db.has_ticket_id i r = false.
Proof.
  intros H r Hr. unfold Db.has_ticket_id. apply Z.eqb_neq. intros E.
  apply H. rewrite <- E. now apply in_map.
Qed.

(** Status updates by id, incidents and tickets side by side. *)
Lemma incident_update_unknown_id {Sq : SqlReal} now i status db :
  ~ In i (map Incident.id (Db.cyber_incidents db)) ->
  Db.update_incident_status Db.Healthy now i status db = (Ret false, db).
Proof.
  intros H. unfold Db.update_incident_status, Db.guarded_write.
  rewrite (update_where_absent _ _ _ (incident_absent_no_match i _ H)).
  destruct db; reflexivity.
Qed.

Lemma incident_update_known_id {Sq : SqlReal} now i status db :
  In i (map Incident.id (Db.cyber_incidents db)) ->
  fst (Db.update_incident_status Db.Healthy now i status db) = Ret true.
Proof.
  intros H. apply in_map_iff in H. destruct H as (r & Hid & Hr).
  unfold Db.update_incident_status, Db.guarded_write, update_where. simpl.
  assert (0 < count_where (Db.has_incident_id i) (Db.cyber_incidents db)) as Hc.
  { apply (count_where_present _ _ r Hr). unfold Db.has_incident_id. lia. }
  apply Z.ltb_lt in Hc. now rewrite Hc.
Qed.

Lemma ticket_update_unknown_id now i status stage db :
  ~ In i (map Ticket.id (Db.it_tickets db)) ->
  Db.update_ticket_status Db.Healthy now i status stage db = (Ret false, db).
Proof.
  intros H. unfold Db.update_ticket_status, Db.guarded_write.
  rewrite (update_where_absent _ _ _ (ticket_absent_no_match i _ H)).
  destruct db; reflexivity.
Qed.

Lemma ticket_update_known_id now i status stage db :
  In i (map Ticket.id (Db.it_tickets db)) ->
  fst (Db.update_ticket_status Db.Healthy now i status stage db) = Ret true.
Proof.
  intros H. apply in_map_iff in H. destruct H as (r & Hid & Hr).
  unfold Db.update_ticket_status, Db.guarded_write, update_where. simpl.
  assert (0 < count_where (Db.has_ticket_id i) (Db.it_tickets db)) as Hc.
  { apply (count_where_present _ _ r Hr). unfold Db.has_ticket_id. lia. }
  apply Z.ltb_lt in Hc. now rewrite Hc.
Qed.

(** C5.  A status update aimed at an id the table does not hold returns
    [False] and hands back the store as it was: no row is added and none
    is changed.  Aimed at an id the table holds, it returns [True].  Both
    hold for incidents and for tickets; in particular on the empty store
    the update of id 9999 to Resolved returns [False] and the store stays
    empty. *)
Theorem update_status_unknown_and_known_id {Sq : SqlReal}
    (now : timestamp) (i : Z) (status stage : string) (db : Db.database) :
  (~ In i (map Incident.id (Db.cyber_incidents db)) ->
     Db.update_incident_status Db.Healthy now i status db = (Ret false, db))
  /\ (In i (map Incident.id (Db.cyber_incidents db)) ->
        fst (Db.update_incident_status Db.Healthy now i status db) = Ret true)
  /\ (~ In i (map Ticket.id (Db.it_tickets db)) ->
        Db.update_ticket_status Db.Healthy now i status stage db = (Ret false, db))
  /\ (In i (map Ticket.id (Db.it_tickets db)) ->
        fst (Db.update_ticket_status Db.Healthy now i status stage db) = Ret true)
  /\ Db.update_incident_status Db.Healthy now 9999 "Resolved" Db.empty_db
     = (Ret false, Db.empty_db)
  /\ Db.update_ticket_status Db.Healthy now 9999 "Resolved" stage Db.empty_db
     = (Ret false, Db.empty_db).
Proof.
  split; [apply incident_update_unknown_id|].
  split; [apply incident_update_known_id|].
  split; [apply ticket_update_unknown_id|].
  split; [apply ticket_update_known_id|].
  split.
  - apply incident_update_unknown_id. simpl. tauto.
  - apply ticket_update_unknown_id. simpl. tauto.
Qed.

Lemma update_status_unknown_and_known_id_witness :
  (~ In 9999 (map Incident.id (Db.cyber_incidents Sample.store))
   /\ Db.update_incident_status Db.Healthy 8200 9999 "Resolved" Sample.store
      = (Ret false, Sample.store))
  /\ (In 1 (map Incident.id (Db.cyber_incidents Sample.store))
      /\ fst (Db.update_incident_status Db.Healthy 8200 1 "Resolved" Sample.store)
         = Ret true)
  /\ (~ In 9999 (map Ticket.id (Db.it_tickets Sample.store))
      /\ Db.update_ticket_status Db.Healthy 8200 9999 "Closed" "Resolved" Sample.store
         = (Ret false, Sample.store))
  /\ (In 7 (map Ticket.id (Db.it_tickets Sample.store))
      /\ fst (Db.update_ticket_status Db.Healthy 8200 7 "Closed" "Resolved" Sample.store)
         = Ret true).
Proof.
  assert (~ In 9999 (map Incident.id (Db.cyber_incidents Sample.store))) as A1
    by (simpl; intros [E|[]]; discriminate E).
  assert (In 1 (map Incident.id (Db.cyber_incidents Sample.store))) as A2
    by (simpl; left; reflexivity).
  assert (~ In 9999 (map Ticket.id (Db.it_tickets Sample.store))) as A3
    by (simpl; intros [E|[]]; discriminate E).
  assert (In 7 (map Ticket.id (Db.it_tickets Sample.store))) as A4
    by (simpl; left; reflexivity).
  refine (conj (conj A1 _) (conj (conj A2 _) (conj (conj A3 _) (conj A4 _)))).
  - exact (proj1 (update_status_unknown_and_known_id
                    8200 9999 "Resolved" "Resolved" Sample.store) A1).
  - exact (proj1 (proj2 (update_status_unknown_and_known_id
                    8200 1 "Resolved" "Resolved" Sample.store)) A2).
  - exact (proj1 (proj2 (proj2 (update_status_unknown_and_known_id
                    8200 9999 "Closed" "Resolved" Sample.store))) A3).
  - exact (proj1 (proj2 (proj2 (proj2 (update_status_unknown_and_known_id
                    8200 7 "Closed" "Resolved" Sample.store)))) A4).
Defined.

(** What the SET clause of [update_incident_status] does to the derived
    column: a value already there stays; an empty one is given a value by
    the status Resolved alone, and then the one computed from [created_at]. *)
Lemma resolution_time_after_set {Sq : SqlReal} now status r :
  Incident.resolution_time_hours (Db.incident_set_status now status r)
  = match Incident.resolution_time_hours r with
    | Some h => Some h
    | None => if (status =? "Resolved")%string
              then Db.resolution_hours now (Incident.created_at r)
              else None
    end.
Proof.
  unfold Db.incident_set_status. simpl.
  destruct (Incident.resolution_time_hours r), (status =? "Resolved")%string;
    reflexivity.
Qed.

Lemma created_at_after_set {Sq : SqlReal} now status r :
  Incident.created_at (Db.incident_set_status now status r) = Incident.created_at r.
Proof. reflexivity. Qed.

Lemma resolution_hours_readable {Sq : SqlReal} now t0 :
  Db.resolution_hours now (Readable t0) = Some (Db.elapsed_hours t0 now).
Proof. reflexivity. Qed.

Lemma run_status_calls_app {Sq : SqlReal} cs1 cs2 db :
  Db.run_status_calls (cs1 ++ cs2) db
  = Db.run_status_calls cs2 (Db.run_status_calls cs1 db).
Proof. unfold Db.run_status_calls. apply fold_left_app. Qed.

(** Calls that do not resolve the incident leave its resolution time
    empty and its creation time alone. *)
Lemma resolution_time_stays_null {Sq : SqlReal} i cs :
  (forall c, In c cs -> Db.resolves i c = false) ->
  forall db r,
    Db.find_incident i db = Some r ->
    Incident.resolution_time_hours r = None ->
    exists r', Db.find_incident i (Db.run_status_calls cs db) = Some r'
               /\ Incident.resolution_time_hours r' = None
               /\ Incident.created_at r' = Incident.created_at r.
Proof.
  induction cs as [|c cs IH]; intros Hcs db r Hr Hnull.
  - exists r. auto.
  - simpl.
    pose proof (find_incident_after_update (Db.call_event c) (Db.call_now c)
                  (Db.call_id c) (Db.call_status c) i db r Hr) as Hstep.
    fold (Db.apply_status_call db c) in Hstep.
    assert (Hc : Db.resolves i c = false) by (apply Hcs; now left).
    destruct (IH (fun c' H' => Hcs c' (or_intror H')) _ _ Hstep) as (r' & F & N & C).
    + unfold Db.resolves in Hc.
      destruct (Db.is_healthy (Db.call_event c) && (Db.call_id c =? i)); [|exact Hnull].
      simpl in Hc. rewrite resolution_time_after_set, Hnull, Hc. reflexivity.
    + exists r'. repeat split; auto. rewrite C.
      destruct (Db.is_healthy (Db.call_event c) && (Db.call_id c =? i)); reflexivity.
Qed.

(** Once the resolution time holds a value, no call changes it. *)
Lemma resolution_time_stays_set {Sq : SqlReal} i cs :
  forall db r h,
    Db.find_incident i db = Some r ->
    Incident.resolution_time_hours r = Some h ->
    exists r', Db.find_incident i (Db.run_status_calls cs db) = Some r'
               /\ Incident.resolution_time_hours r' = Some h.
Proof.
  induction cs as [|c cs IH]; intros db r h Hr Hset.
  - exists r. auto.
  - simpl.
    pose proof (find_incident_after_update (Db.call_event c) (Db.call_now c)
                  (Db.call_id c) (Db.call_status c) i db r Hr) as Hstep.
    fold (Db.apply_status_call db c) in Hstep.
    apply (IH _ _ h Hstep).
    destruct (Db.is_healthy (Db.call_event c) && (Db.call_id c =? i)); [|exact Hset].
    rewrite resolution_time_after_set, Hset. reflexivity.
Qed.

(** With a [created_at] that SQLite cannot read, no call gives the
    resolution time a value. *)
Lemma resolution_time_unreadable {Sq : SqlReal} i cs :
  forall db r text,
    Db.find_incident i db = Some r ->
    Incident.resolution_time_hours r = None ->
    Incident.created_at r = Unreadable text ->
    exists r', Db.find_incident i (Db.run_status_calls cs db) = Some r'
               /\ Incident.resolution_time_hours r' = None
               /\ Incident.created_at r' = Unreadable text.
Proof.
  induction cs as [|c cs IH]; intros db r text Hr Hnull Htext.
  - exists r. auto.
  - simpl.
    pose proof (find_incident_after_update (Db.call_event c) (Db.call_now c)
                  (Db.call_id c) (Db.call_status c) i db r Hr) as Hstep.
    fold (Db.apply_status_call db c) in Hstep.
    apply (IH _ _ text Hstep).
    + destruct (Db.is_healthy (Db.call_event c) && (Db.call_id c =? i));
        [|exact Hnull].
      rewrite resolution_time_after_set, Hnull, Htext.
      destruct (Db.call_status c =? "Resolved")%string; reflexivity.
    + destruct (Db.is_healthy (Db.call_event c) && (Db.call_id c =? i));
        [|exact Htext].
      rewrite created_at_after_set. exact Htext.
Qed.

(** C2, as stated, fails in two ways.  The incident that a CSV import
    creates with a resolution time of 24 hours in the file is created with
    that value; resolved for the first time two hours after its
    [created_at], it still carries the caller's 24 hours, not the two hours
    elapsed.  And the open incident whose [created_at] is text that SQLite
    does not read as a time is resolved by the update, [resolved_at] set,
    while its resolution time stays empty. *)
Lemma resolution_time_from_caller_or_missing :
  Db.create_cyber_incident Db.Healthy Sample.imported_report Db.empty_store
  = (Ret 1,
     Db.mkstore (Db.mkdb [] [Db.incident_of_data 1 Sample.imported_report] [] [])
       (Db.mkseq 1 0 0))
  /\ Incident.resolution_time_hours (Db.incident_of_data 1 Sample.imported_report)
     = Some (24 # 1)%Q
  /\ fst (Db.update_incident_status Db.Healthy 8200 1 "Resolved"
            (Db.mkdb [] [Db.incident_of_data 1 Sample.imported_report] [] []))
     = Ret true
  /\ option_map
       (fun r => (Incident.status r, Incident.created_at r,
                  Incident.resolved_at r, Incident.resolution_time_hours r))
       (Db.find_incident 1
          (snd (Db.update_incident_status Db.Healthy 8200 1 "Resolved"
                  (Db.mkdb [] [Db.incident_of_data 1 Sample.imported_report] [] []))))
     = Some ("Resolved", Readable 1000, Some 8200, Some (24 # 1)%Q)
  /\ (Db.elapsed_hours 1000%Z 8200%Z == 2)%Q
  /\ ~ (24 # 1 == Db.elapsed_hours 1000%Z 8200%Z)%Q
  /\ fst (Db.update_incident_status Db.Healthy 8200 2 "Resolved" Sample.store_undated)
     = Ret true
  /\ option_map
       (fun r => (Incident.status r, Incident.resolved_at r,
                  Incident.resolution_time_hours r))
       (Db.find_incident 2
          (snd (Db.update_incident_status Db.Healthy 8200 2 "Resolved"
                  Sample.store_undated)))
     = Some ("Resolved", Some 8200, None).
Proof.
  split; [reflexivity|]. split; [reflexivity|]. split; [reflexivity|].
  split; [reflexivity|]. split; [reflexivity|]. split; [discriminate|].
  split; reflexivity.
Qed.

(** C2, amended.  Take an incident and any history of status updates.
    - A resolution time that the incident already holds, computed earlier
      or given by the caller when the incident was created, is kept by
      every update.
    - While the resolution time is empty and [created_at] is a time the
      store can read, the column stays empty up to the first update that
      reaches the incident with status Resolved; that update, made at clock
      reading [now1], fills it with the hours from [created_at] to [now1]
      as the store computes them from its clock ([julianday] of the two
      times, their difference, times 24: the call carries only the id and
      the status); and whatever updates follow, a reopening and a second
      Resolved among them, the column keeps that first value.
    - While the resolution time is empty and [created_at] is text the
      store cannot read as a time, no update gives the column a value. *)
Theorem resolution_time_set_once {Sq : SqlReal}
    (i : Z) (db : Db.database) (r : Incident.row)
    (before : list Db.status_call) (now1 : timestamp)
    (after calls : list Db.status_call) :
  Db.find_incident i db = Some r ->
  (forall h,
     Incident.resolution_time_hours r = Some h ->
     exists r', Db.find_incident i (Db.run_status_calls calls db) = Some r'
                /\ Incident.resolution_time_hours r' = Some h)
  /\ (forall t0,
        Incident.resolution_time_hours r = None ->
        Incident.created_at r = Readable t0 ->
        (forall c, In c before -> Db.resolves i c = false) ->
        let first := Db.mkcall Db.Healthy now1 i "Resolved" in
        let h := Db.elapsed_hours t0 now1 in
        (exists r0, Db.find_incident i (Db.run_status_calls before db) = Some r0
                    /\ Incident.resolution_time_hours r0 = None)
        /\ (exists r1,
              Db.find_incident i (Db.run_status_calls (before ++ [first]) db) = Some r1
              /\ Incident.resolution_time_hours r1 = Some h)
        /\ (exists r2,
              Db.find_incident i
                (Db.run_status_calls (before ++ first :: after) db) = Some r2
              /\ Incident.resolution_time_hours r2 = Some h))
  /\ (forall text,
        Incident.resolution_time_hours r = None ->
        Incident.created_at r = Unreadable text ->
        exists r', Db.find_incident i (Db.run_status_calls calls db) = Some r'
                   /\ Incident.resolution_time_hours r' = None).
Proof.
  intros Hr. split; [|split].
  - intros h Hset. exact (resolution_time_stays_set i calls db r h Hr Hset).
  - intros t0 Hnull Hcreated Hbefore first h.
    destruct (resolution_time_stays_null i before Hbefore db r Hr Hnull)
      as (r0 & F0 & N0 & C0).
    assert (exists r1,
               Db.find_incident i (Db.run_status_calls (before ++ [first]) db) = Some r1
               /\ Incident.resolution_time_hours r1 = Some h) as (r1 & F1 & S1).
    { rewrite run_status_calls_app. simpl.
      pose proof (find_incident_after_update Db.Healthy now1 i "Resolved" i _ r0 F0)
        as Hstep.
      simpl in Hstep. rewrite Z.eqb_refl in Hstep.
      eexists. split; [exact Hstep|].
      rewrite resolution_time_after_set, N0, C0, Hcreated. reflexivity. }
    split; [exists r0; auto|].
    split; [exists r1; auto|].
    change (before ++ first :: after)%list with (before ++ [first] ++ after)%list.
    rewrite app_assoc, run_status_calls_app.
    exact (resolution_time_stays_set i after _ r1 h F1 S1).
  - intros text Hnull Htext.
    destruct (resolution_time_unreadable i calls db r text Hr Hnull Htext)
      as (r' & F & N & _).
    exists r'. auto.
Qed.

Lemma resolution_time_set_once_witness :
  (Db.find_incident 1 Sample.store_resolved = Some Sample.phishing_resolved
   /\ Incident.resolution_time_hours Sample.phishing_resolved = Some (2 # 1)%Q
   /\ exists r',
        Db.find_incident 1
          (Db.run_status_calls
             [Db.mkcall Db.Healthy 9000 1 "Open";
              Db.mkcall Db.Healthy 12000 1 "Resolved"]
             Sample.store_resolved) = Some r'
        /\ Incident.resolution_time_hours r' = Some (2 # 1)%Q)
  /\ (Db.find_incident 1 Sample.store = Some Sample.phishing
      /\ Incident.resolution_time_hours Sample.phishing = None
      /\ Incident.created_at Sample.phishing = Readable 1000
      /\ (forall c,
            In c [Db.mkcall Db.Healthy 2000 1 "In Progress";
                  Db.mkcall (Db.FailExecute Sample.locked) 3000 1 "Resolved";
                  Db.mkcall Db.Healthy 3500 2 "Resolved"] ->
            Db.resolves 1 c = false)
      /\ (exists r2,
            Db.find_incident 1
              (Db.run_status_calls
                 ([Db.mkcall Db.Healthy 2000 1 "In Progress";
                   Db.mkcall (Db.FailExecute Sample.locked) 3000 1 "Resolved";
                   Db.mkcall Db.Healthy 3500 2 "Resolved"]
                  ++ Db.mkcall Db.Healthy 8200 1 "Resolved"
                  :: [Db.mkcall Db.Healthy 9000 1 "Open";
                      Db.mkcall Db.Healthy 12000 1 "Resolved"])
                 Sample.store) = Some r2
            /\ Incident.resolution_time_hours r2
               = Some (Db.elapsed_hours 1000 8200)))
  /\ (Db.find_incident 2 Sample.store_undated = Some Sample.undated
      /\ Incident.resolution_time_hours Sample.undated = None
      /\ Incident.created_at Sample.undated = Unreadable "11/03/2026"
      /\ exists r',
           Db.find_incident 2
             (Db.run_status_calls
                [Db.mkcall Db.Healthy 8200 2 "Resolved";
                 Db.mkcall Db.Healthy 9000 2 "Resolved"]
                Sample.store_undated) = Some r'
           /\ Incident.resolution_time_hours r' = None).
Proof.
  assert (forall c,
        In c [Db.mkcall Db.Healthy 2000 1 "In Progress";
              Db.mkcall (Db.FailExecute Sample.locked) 3000 1 "Resolved";
              Db.mkcall Db.Healthy 3500 2 "Resolved"] ->
        Db.resolves 1 c = false) as Hbefore.
  { simpl. intros c [<-|[<-|[<-|[]]]]; reflexivity. }
  refine (conj (conj eq_refl (conj eq_refl _))
            (conj (conj eq_refl (conj eq_refl (conj eq_refl (conj Hbefore _))))
               (conj eq_refl (conj eq_refl (conj eq_refl _))))).
  - exact (proj1
      (resolution_time_set_once 1 Sample.store_resolved Sample.phishing_resolved
         [] 0 []
         [Db.mkcall Db.Healthy 9000 1 "Open"; Db.mkcall Db.Healthy 12000 1 "Resolved"]
         eq_refl)
      (2 # 1)%Q eq_refl).
  - exact (proj2 (proj2
      (proj1 (proj2
         (resolution_time_set_once 1 Sample.store Sample.phishing _ 8200
            [Db.mkcall Db.Healthy 9000 1 "Open"; Db.mkcall Db.Healthy 12000 1 "Resolved"]
            [] eq_refl))
         1000 eq_refl eq_refl Hbefore))).
  - exact (proj2 (proj2
      (resolution_time_set_once 2 Sample.store_undated Sample.undated [] 0 []
         [Db.mkcall Db.Healthy 8200 2 "Resolved"; Db.mkcall Db.Healthy 9000 2 "Resolved"]
         eq_refl))
      "11/03/2026" eq_refl eq_refl).
Defined.

(** C10.  On an incident that is already resolved, with [resolved_at] and
    [resolution_time_hours] both set, a further update with status Resolved
    writes the current clock reading into [resolved_at] and keeps
    [resolution_time_hours]; an update with any other status keeps both. *)
Theorem resolved_incident_updated_again {Sq : SqlReal}
    (now : timestamp) (i : Z) (status : string) (db : Db.database)
    (r : Incident.row) (ra : timestamp) (h : Q) :
  Db.find_incident i db = Some r ->
  Incident.resolved_at r = Some ra ->
  Incident.resolution_time_hours r = Some h ->
  exists r',
    Db.find_incident i (snd (Db.update_incident_status Db.Healthy now i status db))
    = Some r'
    /\ Incident.resolution_time_hours r' = Some h
    /\ (status = "Resolved" -> Incident.resolved_at r' = Some now)
    /\ (status <> "Resolved" -> Incident.resolved_at r' = Some ra).
Proof.
  intros Hr Hra Hh.
  pose proof (find_incident_after_update Db.Healthy now i status i db r Hr) as Hstep.
  simpl in Hstep. rewrite Z.eqb_refl in Hstep.
  exists (Db.incident_set_status now status r).
  split; [exact Hstep|].
  split; [rewrite resolution_time_after_set, Hh; reflexivity|].
  split; intros Hs; simpl.
  - subst status. reflexivity.
  - apply String.eqb_neq in Hs. rewrite Hs. exact Hra.
Qed.

Lemma resolved_incident_updated_again_witness :
  (Db.find_incident 1 Sample.store_resolved = Some Sample.phishing_resolved
   /\ Incident.resolved_at Sample.phishing_resolved = Some 8200
   /\ Incident.resolution_time_hours Sample.phishing_resolved = Some (2 # 1)%Q)
  /\ (exists r',
        Db.find_incident 1
          (snd (Db.update_incident_status Db.Healthy 9999 1 "Resolved"
                  Sample.store_resolved)) = Some r'
        /\ Incident.resolution_time_hours r' = Some (2 # 1)%Q
        /\ Incident.resolved_at r' = Some 9999)
  /\ (exists r',
        Db.find_incident 1
          (snd (Db.update_incident_status Db.Healthy 9999 1 "In Progress"
                  Sample.store_resolved)) = Some r'
        /\ Incident.resolution_time_hours r' = Some (2 # 1)%Q
        /\ Incident.resolved_at r' = Some 8200).
Proof.
  refine (conj (conj eq_refl (conj eq_refl eq_refl)) (conj _ _)).
  - destruct (resolved_incident_updated_again 9999 1 "Resolved"
                Sample.store_resolved Sample.phishing_resolved 8200 (2 # 1)%Q
                eq_refl eq_refl eq_refl) as (r' & F & H & R & _).
    exists r'. exact (conj F (conj H (R eq_refl))).
  - destruct (resolved_incident_updated_again 9999 1 "In Progress"
                Sample.store_resolved Sample.phishing_resolved 8200 (2 # 1)%Q
                eq_refl eq_refl eq_refl) as (r' & F & H & _ & K).
    exists r'. refine (conj F (conj H (K _))). intros E; discriminate E.
Defined.

(** C3, as stated, fails: the ticket [Sample.printer] is Resolved with
    [resolved_at] at second 5000; the same update to Resolved made again at
    second 9000 replaces the stored timestamp by 9000. *)
Lemma ticket_resolved_at_reset :
  Db.find_ticket 7 Sample.store = Some Sample.printer
  /\ Ticket.status Sample.printer = "Resolved"
  /\ Ticket.resolved_at Sample.printer = Some 5000
  /\ option_map Ticket.resolved_at
       (Db.find_ticket 7
          (snd (Db.update_ticket_status Db.Healthy 9000 7 "Resolved" "Resolved"
                  Sample.store)))
     = Some (Some 9000)
  /\ Some 9000 <> Ticket.resolved_at Sample.printer.
Proof.
  repeat split. intros E. discriminate E.
Qed.

(** C3, amended.  One update of a ticket the table holds writes [status]
    and [current_stage] together and returns [True]; it writes the current
    clock reading into [resolved_at] exactly when the new status is
    Resolved or Closed, over whatever the column held, and with any other
    status it leaves [resolved_at] as it was. *)
Theorem ticket_status_stage_resolved_at
    (now : timestamp) (i : Z) (status stage : string) (db : Db.database)
    (r : Ticket.row) :
  Db.find_ticket i db = Some r ->
  fst (Db.update_ticket_status Db.Healthy now i status stage db) = Ret true
  /\ exists r',
       Db.find_ticket i (snd (Db.update_ticket_status Db.Healthy now i status stage db))
       = Some r'
       /\ Ticket.status r' = status
       /\ Ticket.current_stage r' = stage
       /\ (status = "Resolved" \/ status = "Closed" ->
           Ticket.resolved_at r' = Some now)
       /\ (status <> "Resolved" -> status <> "Closed" ->
           Ticket.resolved_at r' = Ticket.resolved_at r).
Proof.
  intros Hr. split.
  - apply ticket_update_known_id.
    rewrite <- (find_ticket_id i db r Hr).
    apply in_map. unfold Db.find_ticket, fetchone_where in Hr.
    now apply find_some in Hr.
  - pose proof (find_ticket_after_update now i status stage i db r Hr) as Hstep.
    rewrite Z.eqb_refl in Hstep.
    exists (Db.ticket_set_status now status stage r).
    split; [exact Hstep|]. simpl.
    split; [reflexivity|]. split; [reflexivity|]. split.
    + intros [-> | ->]; reflexivity.
    + intros H1 H2. apply String.eqb_neq in H1, H2. now rewrite H1, H2.
Qed.

Lemma ticket_status_stage_resolved_at_witness :
  Db.find_ticket 7 Sample.store = Some Sample.printer
  /\ fst (Db.update_ticket_status Db.Healthy 9000 7 "Closed" "Resolved" Sample.store)
     = Ret true.
Proof.
  refine (conj eq_refl _).
  exact (proj1 (ticket_status_stage_resolved_at 9000 7 "Closed" "Resolved"
                  Sample.store Sample.printer eq_refl)).
Defined.

(** ** Storage errors *)

(** C4, as stated, fails: with the database locked while the statement
    executes, [update_incident_status] on the existing incident 1 does not
    raise; it returns [False], which is also what it returns for the id
    9999 that no row has.  The same happens when the commit of a delete
    fails and when the statement of a quality update fails.  The reading
    method [get_user] is the one that raises. *)
Lemma write_fault_returned_as_false :
  Db.update_incident_status (Db.FailExecute Sample.locked) 8200 1 "Resolved" Sample.store
  = (Ret false, Sample.store)
  /\ Db.update_incident_status Db.Healthy 8200 9999 "Resolved" Sample.store
     = (Ret false, Sample.store)
  /\ Db.delete_it_ticket (Db.FailCommit Sample.locked) 7 Sample.store
     = (Ret false, Sample.store)
  /\ Db.update_dataset_quality (Db.FailExecute Sample.locked) 8200 3 (9 # 1)%Q Sample.store
     = (Ret false, Sample.store)
  /\ Db.get_user (Db.FailExecute Sample.locked) "admin" Sample.store
     = Raise Sample.locked.
Proof. repeat split. Qed.

(** C4, amended.  In the status updates, the quality update and the three
    deletes, an exception raised while the statement executes or while it
    is committed is caught inside the method, which returns [False], the
    value that also signals an id that was not found, and the store is as
    before; only a failure to open the connection leaves the method as an
    exception.  The reading methods [get_user] and [get_statistics] have no
    handler: there the exception reaches the caller. *)
Theorem storage_fault_in_write_returns_false {Sq : SqlReal}
    (e : exn) (now : timestamp) (id : Z) (status stage : string) (q : pyfloat)
    (username : string) (db : Db.database) :
  Forall (fun method =>
            method (Db.FailExecute e) db = (Ret false, db)
            /\ method (Db.FailCommit e) db = (Ret false, db)
            /\ method (Db.FailConnect e) db = (Raise e, db))
         (Db.write_methods now id status stage q)
  /\ Db.get_user (Db.FailExecute e) username db = Raise e
  /\ Db.get_user (Db.FailConnect e) username db = Raise e
  /\ Db.get_statistics (Db.FailExecute e) db = Raise e
  /\ Db.get_statistics (Db.FailConnect e) db = Raise e.
Proof.
  split; [|repeat split].
  unfold Db.write_methods. repeat constructor.
Qed.

(** ** Dashboard access *)

(** C1, as stated, fails at the point of rendering: a role outside the
    table is offered the executive dashboard and the assistant in the
    sidebar and both are displayed for it, although the table gives that
    role nothing. *)
Lemma unknown_role_is_shown_executive :
  Main.role_in "unknown_role" Main.known_roles = false
  /\ Main.authorize "unknown_role" "executive" = false
  /\ Main.dashboard_options "unknown_role"
     = [Main.ExecutiveDashboard; Main.AIAssistant]
  /\ Main.show_selected "unknown_role" Main.ExecutiveDashboard
     = Main.Display Main.ExecutiveDashboard
  /\ Main.show_selected "unknown_role" Main.AIAssistant
     = Main.Display Main.AIAssistant.
Proof. repeat split. Qed.

Lemma role_cases (user_role : string) :
  user_role = "admin" \/ user_role = "cybersecurity"
  \/ user_role = "data_science" \/ user_role = "it_operations"
  \/ ((user_role =? "admin") = false /\ (user_role =? "cybersecurity") = false
      /\ (user_role =? "data_science") = false
      /\ (user_role =? "it_operations") = false)%string.
Proof.
  destruct (String.eqb_spec user_role "admin"); [tauto|].
  destruct (String.eqb_spec user_role "cybersecurity"); [tauto|].
  destruct (String.eqb_spec user_role "data_science"); [tauto|].
  destruct (String.eqb_spec user_role "it_operations"); tauto.
Qed.

Lemma allowed_dashboards_unknown (user_role : string) :
  Main.role_in user_role Main.known_roles = false ->
  Main.allowed_dashboards user_role = [].
Proof.
  cbv [Main.role_in Main.known_roles Main.allowed_dashboards
       Config.DASHBOARD_PERMISSIONS map fst snd existsb find orb].
  rewrite (String.eqb_sym "admin"), (String.eqb_sym "cybersecurity"),
    (String.eqb_sym "data_science"), (String.eqb_sym "it_operations").
  destruct (user_role =? "admin")%string; [discriminate|].
  destruct (user_role =? "cybersecurity")%string; [discriminate|].
  destruct (user_role =? "data_science")%string; [discriminate|].
  destruct (user_role =? "it_operations")%string; [discriminate|].
  reflexivity.
Qed.

(** C1, amended.  The lookup in [DASHBOARD_PERMISSIONS] is fail-closed: a
    role outside the four of the table is allowed no dashboard, and by the
    table it_operations is not allowed cybersecurity while admin is.  At
    the point of rendering, [show_selected] checks the role for the
    cybersecurity, data science and IT operations dashboards, and there it
    displays exactly what the table allows, for every role.  The executive
    dashboard and the assistant are displayed for every role without a
    check; for the four roles of the table this is again what the table
    allows. *)
Theorem dashboard_access_decision (user_role : string) (d : Main.nav_option) :
  (Main.role_in user_role Main.known_roles = false ->
     forall dashboard_id, Main.authorize user_role dashboard_id = false)
  /\ Main.authorize "unknown_role" "executive" = false
  /\ Main.authorize "it_operations" "cybersecurity" = false
  /\ Main.authorize "admin" "cybersecurity" = true
  /\ Main.show_selected "it_operations" Main.Cybersecurity
     = Main.NoPermission Main.Cybersecurity
  /\ Main.show_selected "admin" Main.Cybersecurity = Main.Display Main.Cybersecurity
  /\ Main.is_displayed (Main.show_selected user_role d)
     = match d with
       | Main.ExecutiveDashboard | Main.AIAssistant => true
       | _ => Main.authorize user_role (Main.dashboard_key d)
       end
  /\ (Main.role_in user_role Main.known_roles = true ->
      Main.is_displayed (Main.show_selected user_role d)
      = Main.authorize user_role (Main.dashboard_key d)).
Proof.
  split.
  { intros H k. unfold Main.authorize.
    now rewrite (allowed_dashboards_unknown user_role H). }
  do 5 (split; [reflexivity|]).
  destruct (role_cases user_role) as [->|[->|[->|[->|(N1 & N2 & N3 & N4)]]]];
    try (split; [|intros _]; destruct d; reflexivity).
  split.
  - assert (Main.allowed_dashboards user_role = []) as Hnone.
    { apply allowed_dashboards_unknown.
      cbv [Main.role_in Main.known_roles Config.DASHBOARD_PERMISSIONS
           map fst existsb].
      now rewrite N1, N2, N3, N4. }
    unfold Main.authorize. rewrite Hnone.
    destruct d; cbv [Main.show_selected Main.role_in existsb];
      rewrite ?N1, ?N2, ?N3, ?N4; reflexivity.
  - cbv [Main.role_in Main.known_roles Config.DASHBOARD_PERMISSIONS
         map fst existsb].
    rewrite N1, N2, N3, N4. discriminate.
Qed.

Lemma dashboard_access_decision_witness :
  (Main.role_in "auditor" Main.known_roles = false
   /\ Main.authorize "auditor" "executive" = false)
  /\ (Main.role_in "data_science" Main.known_roles = true
      /\ Main.is_displayed (Main.show_selected "data_science" Main.ITOperations)
         = Main.authorize "data_science" (Main.dashboard_key Main.ITOperations)).
Proof.
  refine (conj (conj eq_refl _) (conj eq_refl _)).
  - exact (proj1 (dashboard_access_decision "auditor" Main.ExecutiveDashboard)
             eq_refl "executive").
  - exact (proj2 (proj2 (proj2 (proj2 (proj2 (proj2 (proj2
             (dashboard_access_decision "data_science" Main.ITOperations))))))) eq_refl).
Defined.

(** ** The users table *)

Lemma count_username_zero u (t : list User.row) :
  count_where (Db.has_username u) t = 0 <-> ~ In u (map User.username t).
Proof.
  split.
  - intros H Hin. apply in_map_iff in Hin. destruct Hin as (r & E & Hr).
    assert (Db.has_username u r = true) as Hp
      by (unfold Db.has_username; rewrite E; apply String.eqb_refl).
    pose proof (count_where_present (Db.has_username u) t r Hr Hp). lia.
  - intros H. apply count_where_absent. intros r Hr.
    unfold Db.has_username. apply String.eqb_neq. intros E. apply H.
    rewrite <- E. now apply in_map.
Qed.

(** Under the primary key a username has at most one row. *)
Lemma count_username_pk u (t : list User.row) :
  NoDup (map User.username t) -> count_where (Db.has_username u) t <= 1.
Proof.
  induction t as [|a t IH]; simpl; intros H; [unfold count_where; simpl; lia|].
  apply NoDup_cons_iff in H. destruct H as [Ha Ht].
  change (a :: t) with ([a] ++ t)%list. rewrite count_where_app.
  assert (count_where (Db.has_username u) [a]
          = if (User.username a =? u)%string then 1 else 0) as ->.
  { unfold count_where, Db.has_username. simpl.
    destruct (User.username a =? u)%string; reflexivity. }
  destruct (String.eqb_spec (User.username a) u) as [E|N].
  - rewrite E in Ha. apply count_username_zero in Ha. lia.
  - specialize (IH Ht). lia.
Qed.

Lemma fetchone_app_none {R : Type} (p : R -> bool) (t1 t2 : list R) :
  fetchone_where p t1 = None ->
  fetchone_where p (t1 ++ t2) = fetchone_where p t2.
Proof.
  unfold fetchone_where. induction t1 as [|a t1 IH]; simpl; [reflexivity|].
  destruct (p a); [discriminate|exact IH].
Qed.

Lemma fetchone_none_count {R : Type} (p : R -> bool) (t : list R) :
  fetchone_where p t = None -> count_where p t = 0.
Proof.
  intros H. apply count_where_absent. exact (find_none p t H).
Qed.

(** ** Registration *)

Section Registration.
Context {B : Bcrypt}.

(** A first registration that returned [True] found the username absent
    and appended exactly one row for it. *)
Lemma register_user_success ev1 ev2 now salt username password role db db1 :
  Auth.register_user ev1 ev2 now salt username password role db = (Ret true, db1) ->
  fetchone_where (Db.has_username username) (Db.users db) = None
  /\ db1 = Db.with_users db
             (Db.users db ++ [User.mk username (hashpw password salt) role now]).
Proof.
  unfold Auth.register_user, Auth.register_user_try, Auth.hash_password.
  destruct ev1 as [|e|e|e]; simpl; try discriminate;
    (destruct (fetchone_where (Db.has_username username) (Db.users db)) eqn:F;
     simpl; [discriminate|]);
    (destruct ev2 as [|e2|e2|e2]; simpl;
     [ unfold Db.insert_user; rewrite (fetchone_none_count _ _ F); simpl;
       intros H; injection H as <-; auto
     | discriminate
     | destruct e2; simpl; discriminate
     | destruct e2; simpl; discriminate ]).
Qed.

(** Registering a username that has a row returns [False], whatever the
    engine does during the call, and hands back the store as it was. *)
Lemma register_user_existing ev1 ev2 now salt username password role db row :
  fetchone_where (Db.has_username username) (Db.users db) = Some row ->
  Auth.register_user ev1 ev2 now salt username password role db = (Ret false, db).
Proof.
  intros F. unfold Auth.register_user, Auth.register_user_try.
  destruct ev1; simpl; rewrite ?F; reflexivity.
Qed.

End Registration.

(** C6.  After a registration of [username] that succeeded, a second
    registration of the same username, with any password and role and
    whatever the engine does meanwhile, returns [False] (a value, not an
    exception) and hands back the store unchanged; [create_user] itself
    answers the duplicate with [False]; the user's row still carries the
    first password's hash and the first role, and logging in with the
    first password succeeds and yields that role.  The package is only
    asked to accept the password it hashed. *)
Theorem duplicate_registration_conflict {B : Bcrypt}
    (ev1 ev2 ev3 ev4 : Db.storage_event) (now1 now2 : timestamp)
    (salt1 salt2 : string) (username pw1 role1 pw2 role2 : string)
    (db db1 : Db.database) :
  Auth.register_user ev1 ev2 now1 salt1 username pw1 role1 db = (Ret true, db1) ->
  checkpw pw1 (hashpw pw1 salt1) = Ret true ->
  Auth.register_user ev3 ev4 now2 salt2 username pw2 role2 db1 = (Ret false, db1)
  /\ Db.create_user Db.Healthy now2 username (hashpw pw2 salt2) role2 db1
     = (Ret false, db1)
  /\ Db.get_user Db.Healthy username db1
     = Ret (Some (Db.mkuser username (hashpw pw1 salt1) role1))
  /\ Auth.login_user Db.Healthy username pw1 db1
     = Ret (Some (Db.mkuser username (hashpw pw1 salt1) role1)).
Proof.
  intros Hreg Hcheck.
  destruct (register_user_success _ _ _ _ _ _ _ _ _ Hreg) as [F ->].
  set (row := User.mk username (hashpw pw1 salt1) role1 now1).
  assert (fetchone_where (Db.has_username username)
            (Db.users (Db.with_users db (Db.users db ++ [row]))) = Some row) as F1.
  { simpl. rewrite (fetchone_app_none _ _ _ F). unfold fetchone_where. simpl.
    unfold Db.has_username. simpl. now rewrite String.eqb_refl. }
  split; [exact (register_user_existing _ _ _ _ _ _ _ _ row F1)|].
  split.
  - unfold Db.create_user, Db.insert_user.
    assert (0 < count_where (Db.has_username username)
                  (Db.users (Db.with_users db (Db.users db ++ [row])))) as Hc.
    { unfold fetchone_where in F1. apply find_some in F1. destruct F1 as [I P].
      exact (count_where_present _ _ row I P). }
    apply Z.ltb_lt in Hc. rewrite Hc. reflexivity.
  - assert (Db.get_user Db.Healthy username (Db.with_users db (Db.users db ++ [row]))
            = Ret (Some (Db.mkuser username (hashpw pw1 salt1) role1))) as G.
    { unfold Db.get_user. rewrite F1. reflexivity. }
    split; [exact G|].
    unfold Auth.login_user. rewrite G. unfold Auth.verify_password. simpl.
    now rewrite Hcheck.
Qed.

Lemma duplicate_registration_conflict_witness :
  (@Auth.register_user Sample.toy_bcrypt Db.Healthy Db.Healthy 10 "s001"
     "alice" "pw1" "admin" Db.empty_db = (Ret true, Sample.alice_registered)
   /\ @checkpw Sample.toy_bcrypt "pw1" (@hashpw Sample.toy_bcrypt "pw1" "s001")
      = Ret true)
  /\ @Auth.register_user Sample.toy_bcrypt Db.Healthy Db.Healthy 20 "s002"
       "alice" "pw2" "data_science" Sample.alice_registered
     = (Ret false, Sample.alice_registered)
  /\ @Auth.login_user Sample.toy_bcrypt Db.Healthy "alice" "pw1"
       Sample.alice_registered
     = Ret (Some (Db.mkuser "alice" "s001pw1" "admin")).
Proof.
  pose proof (@duplicate_registration_conflict Sample.toy_bcrypt
                Db.Healthy Db.Healthy Db.Healthy Db.Healthy 10 20 "s001" "s002"
                "alice" "pw1" "admin" "pw2" "data_science" Db.empty_db
                Sample.alice_registered eq_refl eq_refl) as (H1 & _ & _ & H4).
  exact (conj (conj eq_refl eq_refl) (conj H1 H4)).
Defined.

(** ** Seeding the default users *)

Section Seeding.
Context {B : Bcrypt}.

Lemma seed_user_step now t u :
  Db.seed_user now (Ret t) u
  = Ret (if Db.is_missing t u then (t ++ [Db.seed_row now u])%list else t).
Proof.
  destruct u as [[n h] r]. unfold Db.seed_user, Db.is_missing, Db.seed_row.
  destruct (count_where (Db.has_username n) t =? 0) eqn:E; [|reflexivity].
  unfold Db.insert_user. apply Z.eqb_eq in E. rewrite E. reflexivity.
Qed.

(** A row added for one default user does not change what the check for
    another default user counts. *)
Lemma is_missing_after_other now t u v :
  Db.seed_name u <> Db.seed_name v ->
  Db.is_missing (t ++ [Db.seed_row now u]) v = Db.is_missing t v.
Proof.
  destruct u as [[n h] r], v as [[n' h'] r']. unfold Db.seed_name. simpl. intros N.
  rewrite count_where_app.
  assert (count_where (Db.has_username n') [User.mk n h r now] = 0) as ->.
  { apply count_where_absent. intros x [<-|[]]. unfold Db.has_username. simpl.
    now apply String.eqb_neq. }
  now rewrite Z.add_0_r.
Qed.

(** The loop over default users with distinct names appends, in order, a
    row for each name that the table lacked when the loop began. *)
Lemma seed_loop now (ds : list (string * string * string)) :
  NoDup (map Db.seed_name ds) ->
  forall t,
    fold_left (Db.seed_user now) ds (Ret t)
    = Ret (t ++ map (Db.seed_row now) (filter (Db.is_missing t) ds))%list.
Proof.
  induction ds as [|u ds IH]; intros Hnd t; simpl.
  - now rewrite app_nil_r.
  - simpl in Hnd. apply NoDup_cons_iff in Hnd. destruct Hnd as [Hu Hds].
    rewrite seed_user_step. destruct (Db.is_missing t u) eqn:M.
    + rewrite (IH Hds). f_equal. simpl. rewrite <- app_assoc. simpl.
      do 3 f_equal. apply filter_ext_in. intros v Hv.
      apply is_missing_after_other. intros E. apply Hu. rewrite E.
      now apply in_map.
    + now rewrite (IH Hds).
Qed.

Lemma default_users_names salts :
  map Db.seed_name (Db.default_users salts) = Db.default_usernames.
Proof. reflexivity. Qed.

Lemma default_usernames_nodup : NoDup Db.default_usernames.
Proof.
  unfold Db.default_usernames.
  repeat (constructor; [simpl; intuition discriminate|]). constructor.
Qed.

Lemma init_database_healthy now salts db :
  Db.init_database Db.Healthy now salts db
  = (Ret tt, Db.with_users db (Db.users db ++ Db.missing_defaults now salts db)).
Proof.
  unfold Db.init_database, Db.missing_defaults.
  rewrite seed_loop; [reflexivity|].
  rewrite default_users_names. apply default_usernames_nodup.
Qed.

Lemma missing_defaults_names now salts db :
  map User.username (Db.missing_defaults now salts db)
  = filter (fun n => count_where (Db.has_username n) (Db.users db) =? 0)
           Db.default_usernames.
Proof.
  unfold Db.missing_defaults, Db.default_users, Db.default_usernames, Db.is_missing.
  simpl.
  destruct (count_where (Db.has_username "admin") (Db.users db) =? 0),
           (count_where (Db.has_username "cyber") (Db.users db) =? 0),
           (count_where (Db.has_username "data") (Db.users db) =? 0),
           (count_where (Db.has_username "it") (Db.users db) =? 0); reflexivity.
Qed.

Lemma init_database_pk now salts db :
  Db.users_pk db -> Db.users_pk (snd (Db.init_database Db.Healthy now salts db)).
Proof.
  unfold Db.users_pk. intros Hpk. rewrite init_database_healthy. simpl.
  rewrite map_app, missing_defaults_names. apply NoDup_app; [exact Hpk| |].
  - apply NoDup_filter, default_usernames_nodup.
  - intros n Hn Hf. apply filter_In in Hf. destruct Hf as [_ Hz].
    apply Z.eqb_eq, count_username_zero in Hz. contradiction.
Qed.

(** After one healthy run every default username has a row. *)
Lemma init_database_seeds_all now salts db u :
  In u Db.default_usernames ->
  0 < count_where (Db.has_username u)
        (Db.users (snd (Db.init_database Db.Healthy now salts db))).
Proof.
  intros Hu. rewrite init_database_healthy. simpl. rewrite count_where_app.
  destruct (count_where (Db.has_username u) (Db.users db) =? 0) eqn:E.
  - assert (In u (map User.username (Db.missing_defaults now salts db))) as Hin.
    { rewrite missing_defaults_names. apply filter_In. auto. }
    apply in_map_iff in Hin. destruct Hin as (r & Er & Hr).
    assert (Db.has_username u r = true) as Hp
      by (unfold Db.has_username; rewrite Er; apply String.eqb_refl).
    pose proof (count_where_present _ _ r Hr Hp).
    pose proof (count_where_nonneg (Db.has_username u) (Db.users db)). lia.
  - apply Z.eqb_neq in E.
    pose proof (count_where_nonneg (Db.has_username u) (Db.users db)).
    pose proof (count_where_nonneg (Db.has_username u)
                  (Db.missing_defaults now salts db)). lia.
Qed.

(** A run on a table that has every default username changes nothing. *)
Lemma init_database_nothing_missing ev now salts db :
  (forall u, In u Db.default_usernames ->
             0 < count_where (Db.has_username u) (Db.users db)) ->
  snd (Db.init_database ev now salts db) = db.
Proof.
  intros Hall. destruct ev; try reflexivity.
  rewrite init_database_healthy. simpl.
  assert (Db.missing_defaults now salts db = []) as ->.
  { apply map_eq_nil with (f := User.username). rewrite missing_defaults_names.
    unfold Db.default_usernames. simpl.
    assert (forall u, In u Db.default_usernames ->
              (count_where (Db.has_username u) (Db.users db) =? 0) = false) as Hf.
    { intros u Hu. apply Z.eqb_neq. specialize (Hall u Hu). lia. }
    rewrite !Hf by (unfold Db.default_usernames; simpl; tauto). reflexivity. }
  rewrite app_nil_r. destruct db; reflexivity.
Qed.

Lemma run_init_calls_settled cs db :
  (forall u, In u Db.default_usernames ->
             0 < count_where (Db.has_username u) (Db.users db)) ->
  Db.run_init_calls cs db = db.
Proof.
  intros Hall. unfold Db.run_init_calls.
  induction cs as [|c cs IH]; simpl; [reflexivity|].
  now rewrite init_database_nothing_missing.
Qed.

End Seeding.

(** C8.  On any users table that respects its primary key, one healthy
    run of the initialization does not raise, appends one row for each
    default username the table lacks and nothing else, keeps every row
    that was there in place and unchanged, and leaves the other tables
    alone.  Any further runs, whatever their clock, salts and engine
    behaviour, change nothing.  So after any number of runs each of the
    four default usernames has exactly one row. *)
Theorem seeding_idempotent {B : Bcrypt}
    (now : timestamp) (salts : Db.seed_salts) (db : Db.database)
    (further : list Db.init_call) :
  Db.users_pk db ->
  let db1 := snd (Db.init_database Db.Healthy now salts db) in
  fst (Db.init_database Db.Healthy now salts db) = Ret tt
  /\ Db.users db1 = (Db.users db ++ Db.missing_defaults now salts db)%list
  /\ (forall r, In r (Db.missing_defaults now salts db) ->
        In (User.username r) Db.default_usernames
        /\ ~ In (User.username r) (map User.username (Db.users db)))
  /\ Db.cyber_incidents db1 = Db.cyber_incidents db
  /\ Db.datasets_metadata db1 = Db.datasets_metadata db
  /\ Db.it_tickets db1 = Db.it_tickets db
  /\ Db.users_pk db1
  /\ Db.run_init_calls further db1 = db1
  /\ (forall u, In u Db.default_usernames ->
        count_where (Db.has_username u)
          (Db.users (Db.run_init_calls further db1)) = 1).
Proof.
  intros Hpk db1. subst db1.
  pose proof (init_database_pk now salts db Hpk) as Hpk1.
  pose proof (run_init_calls_settled further _
                (init_database_seeds_all now salts db)) as Hrun.
  split; [now rewrite init_database_healthy|].
  split; [now rewrite init_database_healthy|].
  split.
  { intros r Hr. apply (in_map User.username) in Hr.
    rewrite missing_defaults_names in Hr. apply filter_In in Hr.
    destruct Hr as [Hd Hz]. split; [exact Hd|].
    now apply count_username_zero, Z.eqb_eq. }
  do 3 (split; [now rewrite init_database_healthy|]).
  split; [exact Hpk1|].
  split; [exact Hrun|].
  intros u Hu. rewrite Hrun.
  pose proof (init_database_seeds_all now salts db u Hu).
  pose proof (count_username_pk u _ Hpk1). lia.
Qed.

Lemma seeding_idempotent_witness :
  Db.users_pk Sample.partly_seeded
  /\ Db.users
       (@Db.run_init_calls Sample.toy_bcrypt Sample.further_runs
          (snd (@Db.init_database Sample.toy_bcrypt Db.Healthy 100 Sample.salts_a
                  Sample.partly_seeded)))
     = [ User.mk "data" "zzzzchanged" "admin" 50;
         User.mk "bob" "yyyybob" "it_operations" 60;
         User.mk "admin" "a001admin123" "admin" 100;
         User.mk "cyber" "a002cyber123" "cybersecurity" 100;
         User.mk "it" "a004it123" "it_operations" 100 ]
  /\ count_where (Db.has_username "data")
       (Db.users
          (@Db.run_init_calls Sample.toy_bcrypt Sample.further_runs
             (snd (@Db.init_database Sample.toy_bcrypt Db.Healthy 100 Sample.salts_a
                     Sample.partly_seeded)))) = 1.
Proof.
  assert (Db.users_pk Sample.partly_seeded) as Hpk.
  { unfold Db.users_pk. simpl.
    repeat (constructor; [simpl; intuition discriminate|]). constructor. }
  destruct (@seeding_idempotent Sample.toy_bcrypt 100 Sample.salts_a
              Sample.partly_seeded Sample.further_runs Hpk)
    as (_ & Husers & _ & _ & _ & _ & _ & Hrun & Hcount).
  refine (conj Hpk (conj _ (Hcount "data" _))).
  - rewrite Hrun, Husers. reflexivity.
  - simpl. tauto.
Defined.

(** ** Statistics *)

(** On the store that the initialization has just created from nothing,
    [user_count] is 4, the default users. *)
Example fresh_store_user_count :
  exists stats,
    Db.get_statistics Db.Healthy
      (snd (@Db.init_database Sample.toy_bcrypt Db.Healthy 100 Sample.salts_a
              Db.empty_db)) = Ret stats
    /\ Db.user_count stats = 4
    /\ Db.user_count stats <> 0.
Proof.
  eexists. split; [reflexivity|]. split; [reflexivity|]. discriminate.
Qed.

(** C9.  [get_statistics] returns a value on empty tables: with no
    incident, dataset or ticket rows, whatever users there are, every
    incident, dataset and ticket count is 0 and the average quality score
    is the default 0 that COALESCE puts in place of the NULL average;
    [user_count] is the number of user rows.  So it is on a freshly
    initialized store, whose only rows are the 4 default users. *)
Theorem statistics_on_empty_tables {B : Bcrypt} {Sq : SqlReal}
    (now : timestamp) (salts : Db.seed_salts) (us : list User.row) :
  Db.get_statistics Db.Healthy (Db.mkdb us [] [] [])
  = Ret {| Db.user_count := Z.of_nat (length us);
           Db.total_incidents := 0;
           Db.open_incidents := 0;
           Db.total_datasets := 0;
           Db.avg_quality := 0%Q;
           Db.total_tickets := 0;
           Db.open_tickets := 0 |}
  /\ Db.get_statistics Db.Healthy
       (snd (Db.init_database Db.Healthy now salts Db.empty_db))
     = Ret {| Db.user_count := 4;
              Db.total_incidents := 0;
              Db.open_incidents := 0;
              Db.total_datasets := 0;
              Db.avg_quality := 0%Q;
              Db.total_tickets := 0;
              Db.open_tickets := 0 |}.
Proof.
  split.
  - unfold Db.get_statistics, count_where. simpl.
    assert (filter (fun _ : User.row => true) us = us) as ->; [|reflexivity].
    induction us as [|a us IH]; simpl; [reflexivity|now rewrite IH].
  - reflexivity.
Qed.

(* ================================================================== *)
(** * Further properties of the store *)

Section MoreTableFacts.
Context {R : Type}.
Implicit Types (p q : R -> bool) (f : R -> R) (t : list R).

Lemma update_where_Forall2 p f t (P : R -> R -> Prop) :
  (forall r, P r r) -> (forall r, p r = true -> P r (f r)) ->
  Forall2 P t (fst (update_where p f t)).
Proof.
  intros Hrefl Hset. unfold update_where. simpl.
  induction t as [|a t IH]; simpl; constructor; [|exact IH].
  destruct (p a) eqn:E; [now apply Hset|apply Hrefl].
Qed.

Lemma count_where_existsb p t : (0 <? count_where p t) = existsb p t.
Proof.
  unfold count_where. induction t as [|a t IH]; simpl; [reflexivity|].
  destruct (p a); simpl; [|exact IH].
  apply Z.ltb_lt. lia.
Qed.

Lemma count_where_deleted p t :
  count_where p (fst (delete_where p t)) = 0.
Proof.
  apply count_where_absent. unfold delete_where. simpl. intros r Hr.
  apply filter_In in Hr. destruct Hr as [_ Hr]. now apply negb_true_iff in Hr.
Qed.

Lemma fetchone_deleted p q t :
  (forall r, q r = true -> p r = true) ->
  fetchone_where q (fst (delete_where p t)) = None.
Proof.
  intros Hqp. unfold fetchone_where, delete_where. simpl.
  induction t as [|a t IH]; simpl; [reflexivity|].
  destruct (p a) eqn:Ep; simpl; [exact IH|].
  destruct (q a) eqn:Eq; [|exact IH].
  apply Hqp in Eq. congruence.
Qed.

Lemma fetchone_not_deleted p q t :
  (forall r, q r = true -> p r = false) ->
  fetchone_where q (fst (delete_where p t)) = fetchone_where q t.
Proof.
  intros Hqp. unfold fetchone_where, delete_where. simpl.
  induction t as [|a t IH]; simpl; [reflexivity|].
  destruct (p a) eqn:Ep; simpl.
  - destruct (q a) eqn:Eq; [|exact IH]. apply Hqp in Eq. congruence.
  - destruct (q a); [reflexivity|exact IH].
Qed.

Lemma delete_where_twice p t :
  delete_where p (fst (delete_where p t)) = (fst (delete_where p t), 0).
Proof.
  unfold delete_where at 1. rewrite count_where_deleted. f_equal.
  unfold delete_where. simpl.
  induction t as [|a t IH]; simpl; [reflexivity|].
  destruct (p a) eqn:E; simpl; [exact IH|]. rewrite E. simpl. now f_equal.
Qed.

End MoreTableFacts.

Lemma other_incident_id i j (r : Incident.row) :
  j <> i -> Db.has_incident_id j r = true -> Db.has_incident_id i r = false.
Proof. unfold Db.has_incident_id. lia. Qed.

Lemma other_ticket_id i j (r : Ticket.row) :
  j <> i -> Db.has_ticket_id j r = true -> Db.has_ticket_id i r = false.
Proof. unfold Db.has_ticket_id. lia. Qed.

Lemma other_dataset_id i j (r : Dataset.row) :
  j <> i -> Db.has_dataset_id j r = true -> Db.has_dataset_id i r = false.
Proof. unfold Db.has_dataset_id. lia. Qed.

(** X1.  Whatever the engine does, a status update of incident [i]
    keeps the rows of the table in place and in order; every row keeps its
    id, title, description, threat type, severity, creation time and
    assignee; a row with another id is not changed at all; and the users,
    datasets and tickets tables are left alone. *)
Theorem incident_update_frame {Sq : SqlReal}
    (ev : Db.storage_event) (now : timestamp) (i : Z) (status : string)
    (db : Db.database) :
  Forall2
    (fun r r' =>
       Incident.id r' = Incident.id r
       /\ Incident.title r' = Incident.title r
       /\ Incident.description r' = Incident.description r
       /\ Incident.threat_type r' = Incident.threat_type r
       /\ Incident.severity r' = Incident.severity r
       /\ Incident.created_at r' = Incident.created_at r
       /\ Incident.assigned_to r' = Incident.assigned_to r
       /\ (Incident.id r <> i -> r' = r))
    (Db.cyber_incidents db)
    (Db.cyber_incidents (snd (Db.update_incident_status ev now i status db)))
  /\ Db.users (snd (Db.update_incident_status ev now i status db)) = Db.users db
  /\ Db.datasets_metadata (snd (Db.update_incident_status ev now i status db))
     = Db.datasets_metadata db
  /\ Db.it_tickets (snd (Db.update_incident_status ev now i status db))
     = Db.it_tickets db.
Proof.
  destruct ev; simpl; repeat split;
    try (induction (Db.cyber_incidents db); constructor; [tauto|assumption]).
  apply (update_where_Forall2 (Db.has_incident_id i)
           (Db.incident_set_status now status) (Db.cyber_incidents db)).
  - tauto.
  - intros r Hr. simpl. unfold Db.has_incident_id in Hr.
    repeat split; try reflexivity. intros N. lia.
Qed.

Lemma incident_update_frame_witness :
  Incident.id Sample.phishing <> 2
  /\ Db.cyber_incidents
       (snd (Db.update_incident_status Db.Healthy 8200 2 "Resolved" Sample.store))
     = [Sample.phishing].
Proof.
  assert (Incident.id Sample.phishing <> 2) as N by (simpl; lia).
  refine (conj N _).
  pose proof (proj1 (incident_update_frame Db.Healthy 8200 2 "Resolved" Sample.store))
    as F.
  simpl in F. apply Forall2_cons_iff in F.
  destruct F as [(_ & _ & _ & _ & _ & _ & _ & Hsame) _].
  exact (f_equal (fun r => [r]) (Hsame N)).
Defined.

(** X2.  Whatever the engine does, a status update of ticket [i] keeps
    the rows of the table in place and in order; every row keeps its id,
    title, description, assignee, priority, creation time, time in stage
    (the store never derives it) and category; a row with another id is
    not changed at all; and the users, incidents and datasets tables are
    left alone. *)
Theorem ticket_update_frame
    (ev : Db.storage_event) (now : timestamp) (i : Z) (status stage : string)
    (db : Db.database) :
  Forall2
    (fun r r' =>
       Ticket.id r' = Ticket.id r
       /\ Ticket.title r' = Ticket.title r
       /\ Ticket.description r' = Ticket.description r
       /\ Ticket.assigned_to r' = Ticket.assigned_to r
       /\ Ticket.priority r' = Ticket.priority r
       /\ Ticket.created_at r' = Ticket.created_at r
       /\ Ticket.time_in_stage_hours r' = Ticket.time_in_stage_hours r
       /\ Ticket.category r' = Ticket.category r
       /\ (Ticket.id r <> i -> r' = r))
    (Db.it_tickets db)
    (Db.it_tickets (snd (Db.update_ticket_status ev now i status stage db)))
  /\ Db.users (snd (Db.update_ticket_status ev now i status stage db)) = Db.users db
  /\ Db.cyber_incidents (snd (Db.update_ticket_status ev now i status stage db))
     = Db.cyber_incidents db
  /\ Db.datasets_metadata (snd (Db.update_ticket_status ev now i status stage db))
     = Db.datasets_metadata db.
Proof.
  destruct ev; simpl; repeat split;
    try (induction (Db.it_tickets db); constructor; [tauto|assumption]).
  apply (update_where_Forall2 (Db.has_ticket_id i)
           (Db.ticket_set_status now status stage) (Db.it_tickets db)).
  - tauto.
  - intros r Hr. simpl. unfold Db.has_ticket_id in Hr.
    repeat split; try reflexivity. intros N. lia.
Qed.

Lemma ticket_update_frame_witness :
  Ticket.id Sample.printer <> 8
  /\ Db.it_tickets
       (snd (Db.update_ticket_status Db.Healthy 8200 8 "Closed" "Resolved"
               Sample.store))
     = [Sample.printer].
Proof.
  assert (Ticket.id Sample.printer <> 8) as N by (simpl; lia).
  refine (conj N _).
  pose proof (proj1 (ticket_update_frame Db.Healthy 8200 8 "Closed" "Resolved"
                       Sample.store)) as F.
  simpl in F. apply Forall2_cons_iff in F.
  destruct F as [(_ & _ & _ & _ & _ & _ & _ & _ & Hsame) _].
  exact (f_equal (fun r => [r]) (Hsame N)).
Defined.

Lemma fetchone_update_other {R : Type} (p q : R -> bool) (f : R -> R) (t : list R) :
  (forall r, q (f r) = q r) ->
  (forall r, q r = true -> p r = false) ->
  fetchone_where q (fst (update_where p f t)) = fetchone_where q t.
Proof.
  intros Hq Hqp. rewrite fetchone_update_where by exact Hq.
  destruct (fetchone_where q t) as [r|] eqn:F; [|reflexivity]. simpl.
  unfold fetchone_where in F. apply find_some in F. destruct F as [_ F].
  now rewrite (Hqp r F).
Qed.

(** X3.  [update_dataset_quality] on an id the table lacks returns
    [False] and hands back the store unchanged.  On an id the table holds
    it returns [True]; the row then carries what SQLite stores for the
    score, a number exactly as it was passed (the store neither clamps nor
    checks it) and NULL for NaN, and the clock reading as [last_accessed],
    with every other column as before; and the row found under any other
    id is the one found before. *)
Theorem dataset_quality_update
    (now : timestamp) (i : Z) (score : pyfloat) (db : Db.database) :
  (Db.find_dataset i db = None ->
     Db.update_dataset_quality Db.Healthy now i score db = (Ret false, db))
  /\ (forall r, Db.find_dataset i db = Some r ->
        fst (Db.update_dataset_quality Db.Healthy now i score db) = Ret true
        /\ Db.find_dataset i (snd (Db.update_dataset_quality Db.Healthy now i score db))
           = Some (Dataset.mk i (Dataset.name r) (Dataset.source_department r)
                     (Dataset.size_mb r) (Dataset.row_count r)
                     (Dataset.column_count r)
                     (match score with Finite q => Some q | NaN => None end)
                     (Some now)
                     (Dataset.created_at r) (Dataset.sensitivity r)))
  /\ (forall j, j <> i ->
        Db.find_dataset j (snd (Db.update_dataset_quality Db.Healthy now i score db))
        = Db.find_dataset j db).
Proof.
  split; [|split].
  - intros F. unfold Db.update_dataset_quality, Db.guarded_write.
    rewrite update_where_absent.
    + destruct db; reflexivity.
    + exact (find_none _ _ F).
  - intros r F. unfold Db.find_dataset in *.
    pose proof F as F'. unfold fetchone_where in F'. apply find_some in F'.
    destruct F' as [Hin Hid]. split.
    + unfold Db.update_dataset_quality, Db.guarded_write, update_where. simpl.
      pose proof (count_where_present _ _ r Hin Hid) as Hc.
      apply Z.ltb_lt in Hc. now rewrite Hc.
    + pose proof (fetchone_update_where (Db.has_dataset_id i) (Db.has_dataset_id i)
                    (Db.dataset_set_quality now score) (Db.datasets_metadata db)) as H.
      simpl in H. simpl. rewrite H by reflexivity. rewrite F. simpl. rewrite Hid.
      unfold Db.dataset_set_quality, bind_float. unfold Db.has_dataset_id in Hid.
      apply Z.eqb_eq in Hid. now rewrite Hid.
  - intros j N. unfold Db.find_dataset. simpl.
    apply (fetchone_update_other (Db.has_dataset_id i) (Db.has_dataset_id j)
             (Db.dataset_set_quality now score) (Db.datasets_metadata db)).
    + reflexivity.
    + intros r. apply other_dataset_id. congruence.
Qed.

Lemma dataset_quality_update_witness :
  (Db.find_dataset 4 Sample.store = None
   /\ Db.update_dataset_quality Db.Healthy 8200 4 (9 # 1)%Q Sample.store
      = (Ret false, Sample.store))
  /\ (Db.find_dataset 3 Sample.store = Some Sample.survey
      /\ option_map Dataset.quality_score
           (Db.find_dataset 3
              (snd (Db.update_dataset_quality Db.Healthy 8200 3 (42 # 1)%Q
                      Sample.store)))
         = Some (Some (42 # 1)%Q)
      /\ fst (Db.update_dataset_quality Db.Healthy 8200 3 NaN Sample.store) = Ret true
      /\ option_map Dataset.quality_score
           (Db.find_dataset 3
              (snd (Db.update_dataset_quality Db.Healthy 8200 3 NaN Sample.store)))
         = Some None).
Proof.
  refine (conj (conj eq_refl _) (conj eq_refl (conj _ _))).
  - exact (proj1 (dataset_quality_update 8200 4 (9 # 1)%Q Sample.store) eq_refl).
  - destruct (proj1 (proj2 (dataset_quality_update 8200 3 (42 # 1)%Q Sample.store))
                Sample.survey eq_refl) as [_ F].
    rewrite F. reflexivity.
  - destruct (proj1 (proj2 (dataset_quality_update 8200 3 NaN Sample.store))
                Sample.survey eq_refl) as [T F].
    refine (conj T _). rewrite F. reflexivity.
Defined.

(** Deleting by id, table by table. *)
Lemma delete_incident_facts i db :
  fst (Db.delete_incident Db.Healthy i db)
  = Ret (existsb (Db.has_incident_id i) (Db.cyber_incidents db))
  /\ Db.find_incident i (snd (Db.delete_incident Db.Healthy i db)) = None
  /\ (forall j, j <> i ->
        Db.find_incident j (snd (Db.delete_incident Db.Healthy i db))
        = Db.find_incident j db)
  /\ Db.delete_incident Db.Healthy i (snd (Db.delete_incident Db.Healthy i db))
     = (Ret false, snd (Db.delete_incident Db.Healthy i db)).
Proof.
  unfold Db.delete_incident, Db.guarded_write, Db.find_incident.
  pose proof (delete_where_twice (Db.has_incident_id i) (Db.cyber_incidents db)) as Htwice.
  pose proof (fetchone_deleted (Db.has_incident_id i) (Db.has_incident_id i) (Db.cyber_incidents db)
                (fun r H => H)) as Hgone.
  assert (forall j, j <> i ->
            fetchone_where (Db.has_incident_id j)
              (fst (delete_where (Db.has_incident_id i) (Db.cyber_incidents db)))
            = fetchone_where (Db.has_incident_id j) (Db.cyber_incidents db)) as Hother.
  { intros j N. apply fetchone_not_deleted. intros r. apply other_incident_id. congruence. }
  destruct (delete_where (Db.has_incident_id i) (Db.cyber_incidents db)) as [t n] eqn:E.
  assert (n = count_where (Db.has_incident_id i) (Db.cyber_incidents db))
    as Hn by (unfold delete_where in E; congruence).
  simpl in Htwice, Hgone, Hother. cbn [fst snd Db.cyber_incidents].
  split; [now rewrite Hn, count_where_existsb|].
  split; [exact Hgone|]. split; [exact Hother|].
  destruct db; cbn [Db.cyber_incidents Db.with_incidents] in *.
  now rewrite Htwice.
Qed.

Lemma delete_it_ticket_facts i db :
  fst (Db.delete_it_ticket Db.Healthy i db)
  = Ret (existsb (Db.has_ticket_id i) (Db.it_tickets db))
  /\ Db.find_ticket i (snd (Db.delete_it_ticket Db.Healthy i db)) = None
  /\ (forall j, j <> i ->
        Db.find_ticket j (snd (Db.delete_it_ticket Db.Healthy i db))
        = Db.find_ticket j db)
  /\ Db.delete_it_ticket Db.Healthy i (snd (Db.delete_it_ticket Db.Healthy i db))
     = (Ret false, snd (Db.delete_it_ticket Db.Healthy i db)).
Proof.
  unfold Db.delete_it_ticket, Db.guarded_write, Db.find_ticket.
  pose proof (delete_where_twice (Db.has_ticket_id i) (Db.it_tickets db)) as Htwice.
  pose proof (fetchone_deleted (Db.has_ticket_id i) (Db.has_ticket_id i) (Db.it_tickets db)
                (fun r H => H)) as Hgone.
  assert (forall j, j <> i ->
            fetchone_where (Db.has_ticket_id j)
              (fst (delete_where (Db.has_ticket_id i) (Db.it_tickets db)))
            = fetchone_where (Db.has_ticket_id j) (Db.it_tickets db)) as Hother.
  { intros j N. apply fetchone_not_deleted. intros r. apply other_ticket_id. congruence. }
  destruct (delete_where (Db.has_ticket_id i) (Db.it_tickets db)) as [t n] eqn:E.
  assert (n = count_where (Db.has_ticket_id i) (Db.it_tickets db))
    as Hn by (unfold delete_where in E; congruence).
  simpl in Htwice, Hgone, Hother. cbn [fst snd Db.it_tickets].
  split; [now rewrite Hn, count_where_existsb|].
  split; [exact Hgone|]. split; [exact Hother|].
  destruct db; cbn [Db.it_tickets Db.with_tickets] in *.
  now rewrite Htwice.
Qed.

Lemma delete_dataset_facts i db :
  fst (Db.delete_dataset Db.Healthy i db)
  = Ret (existsb (Db.has_dataset_id i) (Db.datasets_metadata db))
  /\ Db.find_dataset i (snd (Db.delete_dataset Db.Healthy i db)) = None
  /\ (forall j, j <> i ->
        Db.find_dataset j (snd (Db.delete_dataset Db.Healthy i db))
        = Db.find_dataset j db)
  /\ Db.delete_dataset Db.Healthy i (snd (Db.delete_dataset Db.Healthy i db))
     = (Ret false, snd (Db.delete_dataset Db.Healthy i db)).
Proof.
  unfold Db.delete_dataset, Db.guarded_write, Db.find_dataset.
  pose proof (delete_where_twice (Db.has_dataset_id i) (Db.datasets_metadata db)) as Htwice.
  pose proof (fetchone_deleted (Db.has_dataset_id i) (Db.has_dataset_id i) (Db.datasets_metadata db)
                (fun r H => H)) as Hgone.
  assert (forall j, j <> i ->
            fetchone_where (Db.has_dataset_id j)
              (fst (delete_where (Db.has_dataset_id i) (Db.datasets_metadata db)))
            = fetchone_where (Db.has_dataset_id j) (Db.datasets_metadata db)) as Hother.
  { intros j N. apply fetchone_not_deleted. intros r. apply other_dataset_id. congruence. }
  destruct (delete_where (Db.has_dataset_id i) (Db.datasets_metadata db)) as [t n] eqn:E.
  assert (n = count_where (Db.has_dataset_id i) (Db.datasets_metadata db))
    as Hn by (unfold delete_where in E; congruence).
  simpl in Htwice, Hgone, Hother. cbn [fst snd Db.datasets_metadata].
  split; [now rewrite Hn, count_where_existsb|].
  split; [exact Hgone|]. split; [exact Hother|].
  destruct db; cbn [Db.datasets_metadata Db.with_datasets] in *.
  now rewrite Htwice.
Qed.

(** X4.  For incidents, tickets and datasets alike, a delete by id
    returns [True] exactly when some row has the id; afterwards no row has
    it, so the same delete made again returns [False] and changes nothing;
    and the row found under any other id is the one found before. *)
Theorem delete_by_id (i : Z) (db : Db.database) :
  (fst (Db.delete_incident Db.Healthy i db)
   = Ret (existsb (Db.has_incident_id i) (Db.cyber_incidents db))
   /\ Db.find_incident i (snd (Db.delete_incident Db.Healthy i db)) = None
   /\ (forall j, j <> i ->
         Db.find_incident j (snd (Db.delete_incident Db.Healthy i db))
         = Db.find_incident j db)
   /\ Db.delete_incident Db.Healthy i (snd (Db.delete_incident Db.Healthy i db))
      = (Ret false, snd (Db.delete_incident Db.Healthy i db)))
  /\ (fst (Db.delete_it_ticket Db.Healthy i db)
      = Ret (existsb (Db.has_ticket_id i) (Db.it_tickets db))
      /\ Db.find_ticket i (snd (Db.delete_it_ticket Db.Healthy i db)) = None
      /\ (forall j, j <> i ->
            Db.find_ticket j (snd (Db.delete_it_ticket Db.Healthy i db))
            = Db.find_ticket j db)
      /\ Db.delete_it_ticket Db.Healthy i (snd (Db.delete_it_ticket Db.Healthy i db))
         = (Ret false, snd (Db.delete_it_ticket Db.Healthy i db)))
  /\ (fst (Db.delete_dataset Db.Healthy i db)
      = Ret (existsb (Db.has_dataset_id i) (Db.datasets_metadata db))
      /\ Db.find_dataset i (snd (Db.delete_dataset Db.Healthy i db)) = None
      /\ (forall j, j <> i ->
            Db.find_dataset j (snd (Db.delete_dataset Db.Healthy i db))
            = Db.find_dataset j db)
      /\ Db.delete_dataset Db.Healthy i (snd (Db.delete_dataset Db.Healthy i db))
         = (Ret false, snd (Db.delete_dataset Db.Healthy i db))).
Proof.
  split; [apply delete_incident_facts|].
  split; [apply delete_it_ticket_facts|apply delete_dataset_facts].
Qed.

Lemma delete_by_id_witness :
  1 <> 9
  /\ Db.find_incident 1 (snd (Db.delete_incident Db.Healthy 9 Sample.store))
     = Some Sample.phishing.
Proof.
  assert (1 <> 9) as N by lia.
  refine (conj N _).
  destruct (delete_by_id 9 Sample.store) as [(_ & _ & Hother & _) _].
  rewrite (Hother 1 N). reflexivity.
Defined.

(** ** Statistics *)

Lemma count_where_le_all {R : Type} (p : R -> bool) (t : list R) :
  count_where p t <= count_where (fun _ => true) t.
Proof.
  unfold count_where. induction t as [|a t IH]; simpl; [lia|].
  destruct (p a); simpl length; lia.
Qed.

Lemma count_where_all {R : Type} (t : list R) :
  count_where (fun _ => true) t = Z.of_nat (length t).
Proof.
  unfold count_where. f_equal. f_equal.
  induction t as [|a t IH]; simpl; [reflexivity|now rewrite IH].
Qed.

Lemma sql_avg_no_value {Sq : SqlReal} (col : list (option Q)) :
  (forall v, In v col -> v = None) -> Db.sql_avg col = None.
Proof.
  intros H. unfold Db.sql_avg.
  assert (flat_map (fun v => match v with Some q => [q] | None => [] end) col = [])
    as ->; [|reflexivity].
  induction col as [|v col IH]; simpl; [reflexivity|].
  rewrite (H v (or_introl eq_refl)). simpl. apply IH.
  intros w Hw. apply H. now right.
Qed.

(** X5.  On a healthy engine [get_statistics] returns its aggregate for
    every store: each total is the number of rows of its table, the open
    incidents are between 0 and the incidents and the open tickets between
    0 and the tickets, and when no dataset has a quality score the average
    quality is the default 0. *)
Theorem statistics_bounds {Sq : SqlReal} (db : Db.database) :
  exists stats,
    Db.get_statistics Db.Healthy db = Ret stats
    /\ Db.user_count stats = Z.of_nat (length (Db.users db))
    /\ Db.total_incidents stats = Z.of_nat (length (Db.cyber_incidents db))
    /\ Db.total_datasets stats = Z.of_nat (length (Db.datasets_metadata db))
    /\ Db.total_tickets stats = Z.of_nat (length (Db.it_tickets db))
    /\ 0 <= Db.open_incidents stats <= Db.total_incidents stats
    /\ 0 <= Db.open_tickets stats <= Db.total_tickets stats
    /\ ((forall r, In r (Db.datasets_metadata db) -> Dataset.quality_score r = None) ->
        Db.avg_quality stats = 0%Q).
Proof.
  eexists. split; [reflexivity|]. simpl.
  split; [apply count_where_all|].
  split; [apply count_where_all|].
  split; [apply count_where_all|].
  split; [apply count_where_all|].
  split; [split; [apply count_where_nonneg|apply count_where_le_all]|].
  split; [split; [apply count_where_nonneg|apply count_where_le_all]|].
  intros Hnone. rewrite sql_avg_no_value; [reflexivity|].
  intros v Hv. apply in_map_iff in Hv. destruct Hv as (r & <- & Hr).
  exact (Hnone r Hr).
Qed.

Lemma statistics_bounds_witness :
  (forall r, In r (Db.datasets_metadata Sample.store_unscored) ->
             Dataset.quality_score r = None)
  /\ exists stats,
       Db.get_statistics Db.Healthy Sample.store_unscored = Ret stats
       /\ Db.total_datasets stats = 1
       /\ Db.avg_quality stats = 0%Q.
Proof.
  assert (forall r, In r (Db.datasets_metadata Sample.store_unscored) ->
                    Dataset.quality_score r = None) as H.
  { simpl. intros r [<-|[]]. reflexivity. }
  refine (conj H _).
  destruct (statistics_bounds Sample.store_unscored)
    as (stats & E & _ & _ & D & _ & _ & _ & A).
  exists stats. exact (conj E (conj D (A H))).
Defined.

(** ** Users, registration and login *)


Lemma fetchone_app_found {R : Type} (p : R -> bool) (t1 t2 : list R) r :
  fetchone_where p t1 = Some r -> fetchone_where p (t1 ++ t2) = Some r.
Proof.
  unfold fetchone_where. induction t1 as [|a t1 IH]; simpl; [discriminate|].
  destruct (p a); [trivial|exact IH].
Qed.

Lemma fetchone_other_username u v (t : list User.row) (x : User.row) :
  v <> u -> User.username x = u ->
  fetchone_where (Db.has_username v) (t ++ [x])
  = fetchone_where (Db.has_username v) t.
Proof.
  intros N E. destruct (fetchone_where (Db.has_username v) t) as [r|] eqn:F.
  - now apply fetchone_app_found.
  - rewrite (fetchone_app_none _ _ _ F). unfold fetchone_where. simpl.
    unfold Db.has_username. rewrite E.
    destruct (String.eqb_spec u v); [congruence|reflexivity].
Qed.

Lemma users_pk_append (t : list User.row) (x : User.row) :
  NoDup (map User.username t) ->
  fetchone_where (Db.has_username (User.username x)) t = None ->
  NoDup (map User.username (t ++ [x])).
Proof.
  intros Hpk F. rewrite map_app. apply NoDup_app; [exact Hpk| |].
  - simpl. constructor; [tauto|constructor].
  - intros n Hn [<-|[]]. apply fetchone_none_count, count_username_zero in F.
    contradiction.
Qed.

Lemma create_user_healthy now u h r db :
  Db.create_user Db.Healthy now u h r db
  = match fetchone_where (Db.has_username u) (Db.users db) with
    | None => (Ret true, Db.with_users db (Db.users db ++ [User.mk u h r now]))
    | Some _ => (Ret false, db)
    end.
Proof.
  unfold Db.create_user, Db.insert_user. rewrite count_where_existsb.
  unfold fetchone_where.
  destruct (find (Db.has_username u) (Db.users db)) as [row|] eqn:F.
  - apply find_some in F. destruct F as [I P].
    assert (existsb (Db.has_username u) (Db.users db) = true) as ->; [|reflexivity].
    apply existsb_exists. now exists row.
  - assert (existsb (Db.has_username u) (Db.users db) = false) as ->; [|reflexivity].
    apply not_true_is_false. intros E. apply existsb_exists in E.
    destruct E as (x & I & P). now rewrite (find_none _ _ F x I) in P.
Qed.

(** X6.  [create_user] on a healthy engine: a username without a row
    gets one, the call returns [True], and [get_user] then returns that
    username with the hash and role that were passed; a username that has
    a row makes the call return [False] with the store unchanged; what
    [get_user] returns for any other username is not affected; and the
    primary key of [users] holds afterwards if it held before, whatever
    the engine did. *)
Theorem create_user_then_get_user
    (ev : Db.storage_event) (now : timestamp) (u h r : string) (db : Db.database) :
  (fetchone_where (Db.has_username u) (Db.users db) = None ->
     fst (Db.create_user Db.Healthy now u h r db) = Ret true
     /\ Db.get_user Db.Healthy u (snd (Db.create_user Db.Healthy now u h r db))
        = Ret (Some (Db.mkuser u h r)))
  /\ (forall row, fetchone_where (Db.has_username u) (Db.users db) = Some row ->
        Db.create_user Db.Healthy now u h r db = (Ret false, db))
  /\ (forall v, v <> u ->
        Db.get_user Db.Healthy v (snd (Db.create_user Db.Healthy now u h r db))
        = Db.get_user Db.Healthy v db)
  /\ (Db.users_pk db -> Db.users_pk (snd (Db.create_user ev now u h r db))).
Proof.
  split; [|split; [|split]].
  - intros F. rewrite create_user_healthy, F. simpl. split; [reflexivity|].
    rewrite (fetchone_app_none _ _ _ F). unfold fetchone_where. simpl.
    unfold Db.has_username. simpl. now rewrite String.eqb_refl.
  - intros row F. now rewrite create_user_healthy, F.
  - intros v N. rewrite create_user_healthy.
    destruct (fetchone_where (Db.has_username u) (Db.users db)); [reflexivity|].
    simpl. now rewrite (fetchone_other_username u v).
  - intros Hpk.
    assert (Db.users_pk (snd (Db.create_user Db.Healthy now u h r db))) as Hh.
    { rewrite create_user_healthy.
      destruct (fetchone_where (Db.has_username u) (Db.users db)) eqn:F;
        [exact Hpk|].
      unfold Db.users_pk. simpl. now apply users_pk_append. }
    destruct ev as [|e|e|e]; [exact Hh|exact Hpk| |]; simpl;
      destruct e; exact Hpk.
Qed.

Lemma create_user_then_get_user_witness :
  (fetchone_where (Db.has_username "carol") (Db.users Sample.alice_registered) = None
   /\ Db.get_user Db.Healthy "carol"
        (snd (Db.create_user Db.Healthy 30 "carol" "s003pw3" "data_science"
                Sample.alice_registered))
      = Ret (Some (Db.mkuser "carol" "s003pw3" "data_science")))
  /\ ("alice" <> "carol"
      /\ Db.get_user Db.Healthy "alice"
           (snd (Db.create_user Db.Healthy 30 "carol" "s003pw3" "data_science"
                   Sample.alice_registered))
         = Db.get_user Db.Healthy "alice" Sample.alice_registered).
Proof.
  assert ("alice" <> "carol") as N by discriminate.
  refine (conj (conj eq_refl _) (conj N _)).
  - exact (proj2 (proj1 (create_user_then_get_user Db.Healthy 30 "carol" "s003pw3"
                           "data_science" Sample.alice_registered) eq_refl)).
  - exact (proj1 (proj2 (proj2 (create_user_then_get_user Db.Healthy 30 "carol"
                           "s003pw3" "data_science" Sample.alice_registered)))
             "alice" N).
Defined.



(** The two ways a registration can end. *)
Lemma register_user_shape {B : Bcrypt}
    (ev1 ev2 : Db.storage_event) (now : timestamp) (salt u pw role : string)
    (db : Db.database) :
  exists b : bool,
     Auth.register_user ev1 ev2 now salt u pw role db
     = (Ret b,
        if b
        then Db.with_users db
               (Db.users db ++ [User.mk u (hashpw pw salt) role now])%list
        else db)
     /\ (b = true -> fetchone_where (Db.has_username u) (Db.users db) = None).
Proof.
  unfold Auth.register_user, Auth.register_user_try, Auth.hash_password.
  destruct ev1 as [|e|e|e]; simpl;
    try (exists false; split; [reflexivity|discriminate]);
    (destruct (fetchone_where (Db.has_username u) (Db.users db)) eqn:F; simpl;
     [exists false; split; [reflexivity|discriminate]|]);
    (destruct ev2 as [|e2|e2|e2]; simpl;
     [ unfold Db.insert_user; rewrite (fetchone_none_count _ _ F); simpl;
       exists true; split; [reflexivity|reflexivity]
     | exists false; split; [reflexivity|discriminate]
     | destruct e2; simpl; exists false; split; (reflexivity || discriminate)
     | destruct e2; simpl; exists false; split; (reflexivity || discriminate) ]).
Qed.

(** X8.  [register_user] always returns a boolean.  When it returns
    [True] the username had no row and the store gained exactly one user
    row, with the role passed and the hash of the password under the salt
    drawn; when it returns [False] the store is unchanged.  On a healthy
    engine a username without a row is registered.  In every case the
    primary key of [users] is kept. *)
Theorem register_user_outcome {B : Bcrypt}
    (ev1 ev2 : Db.storage_event) (now : timestamp) (salt u pw role : string)
    (db : Db.database) :
  (exists b : bool,
     Auth.register_user ev1 ev2 now salt u pw role db
     = (Ret b,
        if b
        then Db.with_users db
               (Db.users db ++ [User.mk u (hashpw pw salt) role now])%list
        else db)
     /\ (b = true -> fetchone_where (Db.has_username u) (Db.users db) = None))
  /\ (fetchone_where (Db.has_username u) (Db.users db) = None ->
      fst (Auth.register_user Db.Healthy Db.Healthy now salt u pw role db) = Ret true)
  /\ (Db.users_pk db ->
      Db.users_pk (snd (Auth.register_user ev1 ev2 now salt u pw role db))).
Proof.
  pose proof (register_user_shape ev1 ev2 now salt u pw role db) as Hout.
  split; [exact Hout|]. split.
  - intros F. unfold Auth.register_user, Auth.register_user_try, Db.get_user.
    rewrite F. cbn [option_map]. rewrite create_user_healthy, F. reflexivity.
  - intros Hpk. destruct Hout as (b & -> & Hb). simpl.
    destruct b; [|exact Hpk].
    unfold Db.users_pk. simpl. apply users_pk_append; [exact Hpk|].
    simpl. now apply Hb.
Qed.

Lemma register_user_outcome_witness :
  (fetchone_where (Db.has_username "carol") (Db.users Sample.alice_registered) = None
   /\ fst (@Auth.register_user Sample.toy_bcrypt Db.Healthy Db.Healthy 30 "s003"
             "carol" "pw3" "data_science" Sample.alice_registered) = Ret true)
  /\ (Db.users_pk Sample.alice_registered
      /\ Db.users_pk
           (snd (@Auth.register_user Sample.toy_bcrypt Db.Healthy
                   (Db.FailCommit Sample.locked) 30 "s003" "carol" "pw3"
                   "data_science" Sample.alice_registered))).
Proof.
  assert (Db.users_pk Sample.alice_registered) as Hpk.
  { unfold Db.users_pk. simpl. constructor; [simpl; tauto|constructor]. }
  refine (conj (conj eq_refl _) (conj Hpk _)).
  - exact (proj1 (proj2 (@register_user_outcome Sample.toy_bcrypt Db.Healthy
                           Db.Healthy 30 "s003" "carol" "pw3" "data_science"
                           Sample.alice_registered)) eq_refl).
  - exact (proj2 (proj2 (@register_user_outcome Sample.toy_bcrypt Db.Healthy
                           (Db.FailCommit Sample.locked) 30 "s003" "carol" "pw3"
                           "data_science" Sample.alice_registered)) Hpk).
Defined.

(** The row under a username that the table held before a run of the
    initialization is the row found after it. *)
Lemma init_database_keeps_row {B : Bcrypt} ev now salts db u row :
  fetchone_where (Db.has_username u) (Db.users db) = Some row ->
  fetchone_where (Db.has_username u)
    (Db.users (snd (Db.init_database ev now salts db))) = Some row.
Proof.
  intros F. destruct ev; try exact F.
  rewrite init_database_healthy. simpl. now apply fetchone_app_found.
Qed.

(** X9.  The initialization and the accounts of [DEFAULT_USERS].  A
    username that has a row before a run has the same row after it, so a
    run never resets a password or a role, not even of a default account.
    A default username without a row is seeded by a healthy run with the
    role that [DEFAULT_USERS] lists and a hash of the password listed
    there under one of the salts of the run; if the package accepts that
    password against that hash, logging in with it succeeds and yields the
    listed role. *)
Theorem default_accounts_after_init {B : Bcrypt}
    (ev : Db.storage_event) (now : timestamp) (salts : Db.seed_salts)
    (db : Db.database) :
  (forall u row,
     fetchone_where (Db.has_username u) (Db.users db) = Some row ->
     Db.get_user Db.Healthy u (snd (Db.init_database ev now salts db))
     = Db.get_user Db.Healthy u db)
  /\ (forall u password role,
        In (u, (password, role)) Config.DEFAULT_USERS ->
        fetchone_where (Db.has_username u) (Db.users db) = None ->
        exists h,
          In h (map (hashpw password)
                  [Db.salt_admin salts; Db.salt_cyber salts;
                   Db.salt_data salts; Db.salt_it salts])
          /\ Db.get_user Db.Healthy u
               (snd (Db.init_database Db.Healthy now salts db))
             = Ret (Some (Db.mkuser u h role))
          /\ (checkpw password h = Ret true ->
              Auth.login_user Db.Healthy u password
                (snd (Db.init_database Db.Healthy now salts db))
              = Ret (Some (Db.mkuser u h role)))).
Proof.
  split.
  - intros u row F. unfold Db.get_user.
    now rewrite (init_database_keeps_row ev now salts db u row F), F.
  - intros u password role Hin F.
    pose proof (fetchone_none_count _ _ F) as Hc.
    rewrite init_database_healthy. unfold Auth.login_user, Db.get_user.
    cbn [snd Db.users Db.with_users].
    rewrite (fetchone_app_none _ _ _ F).
    cbv [Db.missing_defaults Db.default_users Db.is_missing filter map Db.seed_row].
    unfold Config.DEFAULT_USERS in Hin.
    destruct Hin as [E|[E|[E|[E|[]]]]]; injection E as <- <- <-; rewrite Hc;
      change (0 =? 0) with true; cbv iota;
      repeat match goal with
        | |- context [count_where ?p ?t =? 0] => destruct (count_where p t =? 0)
        end;
      eexists;
      ((split; [|split]);
       [ | unfold fetchone_where; simpl; reflexivity
         | intros Hcheck; unfold fetchone_where; simpl;
           unfold Auth.verify_password; simpl in Hcheck |- *; rewrite Hcheck;
           reflexivity ];
       simpl; intuition reflexivity).
Qed.

Lemma default_accounts_after_init_witness :
  (fetchone_where (Db.has_username "data") (Db.users Sample.partly_seeded)
   = Some (User.mk "data" "zzzzchanged" "admin" 50)
   /\ Db.get_user Db.Healthy "data"
        (snd (@Db.init_database Sample.toy_bcrypt Db.Healthy 100 Sample.salts_a
                Sample.partly_seeded))
      = Db.get_user Db.Healthy "data" Sample.partly_seeded)
  /\ (In ("it", ("it123", "it_operations")) Config.DEFAULT_USERS
      /\ fetchone_where (Db.has_username "it") (Db.users Sample.partly_seeded) = None
      /\ @Auth.login_user Sample.toy_bcrypt Db.Healthy "it" "it123"
           (snd (@Db.init_database Sample.toy_bcrypt Db.Healthy 100 Sample.salts_a
                   Sample.partly_seeded))
         = Ret (Some (Db.mkuser "it" "a004it123" "it_operations"))).
Proof.
  assert (In ("it", ("it123", "it_operations")) Config.DEFAULT_USERS) as I
    by (simpl; tauto).
  refine (conj (conj eq_refl _) (conj I (conj eq_refl _))).
  - exact (proj1 (@default_accounts_after_init Sample.toy_bcrypt Db.Healthy 100
                    Sample.salts_a Sample.partly_seeded) "data"
             (User.mk "data" "zzzzchanged" "admin" 50) eq_refl).
  - destruct (proj2 (@default_accounts_after_init Sample.toy_bcrypt Db.Healthy 100
                       Sample.salts_a Sample.partly_seeded) "it" "it123"
                "it_operations" I eq_refl) as (h & Hh & G & L).
    assert (h = "a004it123") as -> by (vm_compute in G; congruence).
    exact (L eq_refl).
Defined.

(** ** Sidebar and main content *)

Lemma dashboard_options_unknown (user_role : string) :
  ((user_role =? "admin") = false /\ (user_role =? "cybersecurity") = false
   /\ (user_role =? "data_science") = false
   /\ (user_role =? "it_operations") = false)%string ->
  Main.dashboard_options user_role = [Main.ExecutiveDashboard; Main.AIAssistant]
  /\ forall d, Main.show_selected user_role d
               = match d with
                 | Main.ExecutiveDashboard | Main.AIAssistant => Main.Display d
                 | _ => Main.NoPermission d
                 end.
Proof.
  intros (N1 & N2 & N3 & N4). split.
  - unfold Main.dashboard_options. now rewrite N1, N2, N3, N4.
  - intros d. destruct d; cbv [Main.show_selected Main.role_in existsb];
      rewrite ?N1, ?N2, ?N3, ?N4; reflexivity.
Qed.

(** X10.  For every role, the sidebar offers a dashboard exactly when
    the main content area would display it: nothing offered is refused and
    nothing refused is offered.  The list of offers has no repetition, it
    begins with the executive dashboard, which is the default selection,
    and the main content area either displays the selected dashboard or
    reports the missing permission for it. *)
Theorem sidebar_matches_main_content (user_role : string) (d : Main.nav_option) :
  (In d (Main.dashboard_options user_role)
   <-> Main.show_selected user_role d = Main.Display d)
  /\ NoDup (Main.dashboard_options user_role)
  /\ hd_error (Main.dashboard_options user_role) = Some Main.ExecutiveDashboard
  /\ (Main.show_selected user_role d = Main.Display d
      \/ Main.show_selected user_role d = Main.NoPermission d).
Proof.
  destruct (role_cases user_role) as [->|[->|[->|[->|Hn]]]].
  5: { destruct (dashboard_options_unknown user_role Hn) as [-> Hshow].
       rewrite Hshow. repeat split.
       - intros [<-|[<-|[]]]; reflexivity.
       - destruct d; intros H; try discriminate H; simpl; tauto.
       - repeat (constructor; [simpl; intuition discriminate|]). constructor.
       - destruct d; tauto. }
  all: repeat split;
    [ destruct d; intros H; first [reflexivity | simpl in H; intuition discriminate]
    | destruct d; intros H; first [simpl; tauto | discriminate H]
    | repeat (constructor; [simpl; intuition discriminate|]); constructor
    | destruct d; simpl; tauto ].
Qed.

Lemma sidebar_matches_main_content_witness :
  In Main.DataScience (Main.dashboard_options "data_science")
  /\ Main.show_selected "data_science" Main.DataScience
     = Main.Display Main.DataScience.
Proof.
  assert (In Main.DataScience (Main.dashboard_options "data_science")) as I
    by (simpl; tauto).
  refine (conj I _).
  exact (proj1 (proj1 (sidebar_matches_main_content "data_science" Main.DataScience))
           I).
Defined.

(** ** Sessions *)

Section Sessions.
Context {B : Bcrypt}.

Lemma login_user_some ev u p db user :
  Auth.login_user ev u p db = Ret (Some user) ->
  exists row, fetchone_where (Db.has_username u) (Db.users db) = Some row
              /\ user = Db.user_dict_of row.
Proof.
  unfold Auth.login_user, Db.get_user. intros H.
  destruct ev; simpl in H; try discriminate;
    (destruct (fetchone_where (Db.has_username u) (Db.users db)) as [row|];
     simpl in H; [|discriminate]; exists row; split; [reflexivity|];
     destruct (Auth.verify_password p (User.password_hash row));
     [now injection H as <-|discriminate]).
Qed.

Lemma register_user_users ev1 ev2 now salt u pw role db :
  exists extra,
    snd (Auth.register_user ev1 ev2 now salt u pw role db)
    = Db.with_users db (Db.users db ++ extra)
    /\ Forall (fun r => User.role r = role) extra.
Proof.
  assert (Db.with_users db (Db.users db ++ []) = db) as Hsame
    by (rewrite app_nil_r; destruct db; reflexivity).
  unfold Auth.register_user, Auth.register_user_try, Auth.hash_password.
  destruct ev1 as [|e|e|e]; simpl;
    try (exists []; split; [now rewrite Hsame|constructor]);
    (destruct (fetchone_where (Db.has_username u) (Db.users db)) eqn:F; simpl;
     [exists []; split; [now rewrite Hsame|constructor]|]);
    (destruct ev2 as [|e2|e2|e2]; simpl;
     [ unfold Db.insert_user; rewrite (fetchone_none_count _ _ F); simpl;
       eexists; split; [reflexivity|repeat constructor]
     | exists []; split; [now rewrite Hsame|constructor]
     | destruct e2; simpl; exists []; split; (now rewrite Hsame) || constructor
     | destruct e2; simpl; exists []; split; (now rewrite Hsame) || constructor ]).
Qed.

Lemma session_ok_more_users s db extra :
  App.session_ok s db ->
  App.session_ok s (Db.with_users db (Db.users db ++ extra)).
Proof.
  unfold App.session_ok. destruct (App.authenticated s); [|trivial].
  intros (name & role & row & Hn & Hr & F & E).
  exists name, role, row. repeat split; auto. simpl. now apply fetchone_app_found.
Qed.

Lemma roles_known_more_users db extra :
  App.roles_known db ->
  Forall (fun r => In (User.role r) Main.known_roles) extra ->
  App.roles_known (Db.with_users db (Db.users db ++ extra)).
Proof.
  unfold App.roles_known. simpl. intros H1 H2. apply Forall_app. now split.
Qed.

Lemma missing_defaults_roles now salts db :
  Forall (fun r => In (User.role r) Main.known_roles)
    (Db.missing_defaults now salts db).
Proof.
  apply Forall_forall. intros r Hr. unfold Db.missing_defaults in Hr.
  apply in_map_iff in Hr. destruct Hr as (d & <- & Hd).
  apply filter_In in Hd. destruct Hd as [Hd _]. unfold Db.default_users in Hd.
  destruct Hd as [<-|[<-|[<-|[<-|[]]]]]; simpl; tauto.
Qed.

Lemma init_database_after ev now salts db :
  exists extra,
    snd (Db.init_database ev now salts db)
    = Db.with_users db (Db.users db ++ extra)
    /\ Forall (fun r => In (User.role r) Main.known_roles) extra.
Proof.
  assert (Db.with_users db (Db.users db ++ []) = db) as Hsame
    by (rewrite app_nil_r; destruct db; reflexivity).
  destruct ev; try (exists []; split; [now rewrite Hsame|constructor]).
  rewrite init_database_healthy. eexists. split; [reflexivity|].
  apply missing_defaults_roles.
Qed.

Lemma role_text_known r : In (App.role_text r) Main.known_roles.
Proof. destruct r; simpl; tauto. Qed.

(** What the login page leaves behind. *)
Lemma show_login_page_keeps env i s db :
  App.authenticated s = false ->
  App.session_ok s db ->
  let '(p, s', db') := App.show_login_page env i s db in
  App.session_ok s' db'
  /\ (App.roles_known db -> App.roles_known db')
  /\ (p = App.LoginPage \/ p = App.Rerun).
Proof.
  intros Hanon Hok. unfold App.show_login_page.
  destruct i as [|u p|nu np cp r|dark|]; try (split; [exact Hok|tauto]).
  - destruct (App.nonempty u && App.nonempty p); [|split; [exact Hok|tauto]].
    destruct (Auth.login_user (App.env_get env) u p db) as [[user|]|e] eqn:L;
      try (split; [exact Hok|tauto]).
    split; [|tauto].
    destruct (login_user_some _ _ _ _ _ L) as (row & F & ->).
    unfold App.session_ok. simpl. exists u, (User.role row), row. auto.
  - destruct (App.nonempty nu && App.nonempty np); [|split; [exact Hok|tauto]].
    destruct (np =? cp)%string; [|split; [exact Hok|tauto]].
    destruct (register_user_users (App.env_get env) (App.env_create env)
                (App.env_now env) (App.env_salt env) nu np (App.role_text r) db)
      as (extra & E & Hroles).
    destruct (Auth.register_user (App.env_get env) (App.env_create env)
                (App.env_now env) (App.env_salt env) nu np (App.role_text r) db)
      as [o db'].
    simpl in E. subst db'. split; [now apply session_ok_more_users|].
    split; [|tauto]. intros Hk. apply roles_known_more_users; [exact Hk|].
    eapply Forall_impl; [|exact Hroles]. intros x ->. apply role_text_known.
Qed.

(** What the main application leaves behind, and what it shows. *)
Lemma show_main_application_keeps selected i s db :
  App.authenticated s = true ->
  App.session_ok s db ->
  let '(p, s', db') := App.show_main_application selected i s db in
  App.session_ok s' db' /\ db' = db
  /\ exists role,
       App.user_role s = Some role
       /\ (p = App.Rerun \/ p = App.MainPage (Main.show_selected role selected)).
Proof.
  intros Hauth Hok. unfold App.show_main_application.
  pose proof Hok as Hok'. unfold App.session_ok in Hok'. rewrite Hauth in Hok'.
  destruct Hok' as (name & role & row & Hn & Hr & F & E). rewrite Hr.
  destruct i as [|u p|nu np cp r|dark|];
    try (split; [exact Hok|split; [reflexivity|exists role; auto]]).
  - destruct (Bool.eqb dark (App.dark_mode s));
      [split; [exact Hok|split; [reflexivity|exists role; auto]]|].
    split; [|split; [reflexivity|exists role; auto]].
    unfold App.session_ok. simpl. rewrite Hauth. exists name, role, row. auto.
  - split; [|split; [reflexivity|exists role; auto]].
    unfold App.session_ok. simpl. auto.
Qed.

Lemma session_ok_same_users s db db' :
  Db.users db' = Db.users db -> App.session_ok s db -> App.session_ok s db'.
Proof. unfold App.session_ok. intros ->. trivial. Qed.

(** One run of the script. *)
Lemma main_keeps env selected i state db :
  App.state_ok (state, db) ->
  let '(p, s', db') := App.main env selected i state db in
  App.session_ok s' db'
  /\ (App.roles_known db -> App.roles_known db')
  /\ p <> App.CrashNoRole
  /\ forall c, p = App.MainPage c ->
       exists s role,
         state = Some s /\ App.authenticated s = true
         /\ App.user_role s = Some role
         /\ c = Main.show_selected role selected.
Proof.
  intros Hst. unfold App.main.
  set (s := match state with None => App.fresh_session | Some s => s end).
  assert (App.session_ok s db) as Hok.
  { subst s. destruct state as [s|]; [exact Hst|].
    unfold App.session_ok. simpl. auto. }
  destruct (init_database_after (Db.init_event (App.env_init env))
              (Db.init_now (App.env_init env)) (Db.init_salts (App.env_init env)) db)
    as (extra & E & Hroles).
  destruct (Db.init_database (Db.init_event (App.env_init env))
              (Db.init_now (App.env_init env)) (Db.init_salts (App.env_init env)) db)
    as [[u|e] db1]; simpl in E; subst db1.
  2: { split; [now apply session_ok_more_users|].
       split; [intros Hk; now apply roles_known_more_users|].
       split; [discriminate|]. intros c Hc. discriminate Hc. }
  pose proof (session_ok_more_users s db extra Hok) as Hok1.
  destruct (App.authenticated s) eqn:Hauth.
  - pose proof (show_main_application_keeps selected i s _ Hauth Hok1) as Hm.
    destruct (App.show_main_application selected i s
                (Db.with_users db (Db.users db ++ extra))) as [[p s'] db'].
    destruct Hm as (Hs' & -> & role & Hr & Hp).
    split; [exact Hs'|].
    split; [intros Hk; now apply roles_known_more_users|].
    split; [destruct Hp as [->| ->]; discriminate|].
    intros c Hc. destruct state as [s0|].
    + exists s0, role. subst s. repeat split; auto.
      destruct Hp as [->| ->]; [discriminate|]. now injection Hc as <-.
    + subst s. discriminate Hauth.
  - pose proof (show_login_page_keeps env i s _ Hauth Hok1) as Hl.
    destruct (App.show_login_page env i s
                (Db.with_users db (Db.users db ++ extra))) as [[p s'] db'].
    destruct Hl as (Hs' & Hk' & Hp).
    split; [exact Hs'|].
    split; [intros Hk; apply Hk'; now apply roles_known_more_users|].
    split; [destruct Hp as [->| ->]; discriminate|].
    intros c Hc. destruct Hp as [->| ->]; discriminate Hc.
Qed.

Lemma apply_app_event_keeps st ev :
  App.state_ok st ->
  App.state_ok (App.apply_app_event st ev)
  /\ (App.roles_known (snd st) -> App.roles_known (snd (App.apply_app_event st ev))).
Proof.
  intros Hst. destruct st as [state db]. destruct ev as [env selected i|inc dat tic].
  - unfold App.apply_app_event. cbn [fst snd].
    pose proof (main_keeps env selected i state db Hst) as Hm.
    destruct (App.main env selected i state db) as [[p s'] db'].
    destruct Hm as (Hs' & Hk & _). split; [exact Hs'|exact Hk].
  - unfold App.apply_app_event. cbn [fst snd]. split; [|trivial].
    unfold App.state_ok in *. cbn [fst snd] in *.
    destruct state as [s|]; [|trivial].
    now apply (session_ok_same_users s db).
Qed.

Lemma run_app_events_keeps evs :
  forall st,
    App.state_ok st ->
    App.state_ok (App.run_app_events evs st)
    /\ (App.roles_known (snd st) -> App.roles_known (snd (App.run_app_events evs st))).
Proof.
  induction evs as [|ev evs IH]; intros st Hst; [split; trivial|].
  simpl. destruct (apply_app_event_keeps st ev Hst) as [H1 H2].
  destruct (IH _ H1) as [H3 H4]. split; [exact H3|]. intros Hk. apply H4, H2, Hk.
Qed.

Lemma show_selected_known_role role d :
  In role Main.known_roles ->
  Main.is_displayed (Main.show_selected role d)
  = Main.authorize role (Main.dashboard_key d).
Proof.
  intros [<-|[<-|[<-|[<-|[]]]]]; destruct d; reflexivity.
Qed.

End Sessions.

(** X11.  Over any history of a browser session (runs of the script
    with any interaction, role choice, clock, salt and engine behaviour,
    and writes of the dashboards in between), from any store: once the
    script has run, the session is either anonymous, with neither role nor
    username set, or logged in under a username that has a row in [users]
    whose role is the session's role. *)
Theorem session_stays_consistent {B : Bcrypt}
    (evs : list App.app_event) (db0 : Db.database) :
  App.state_ok (App.run_app_events evs (None, db0)).
Proof.
  apply run_app_events_keeps. exact I.
Qed.

(** X12.  Start from a store in which every user has one of the four
    roles of the table, and let a browser session run through any such
    history.  Then the next run of the script never fails for want of a
    role, and when it draws the main page, the session is logged in, its
    role is one of the four, and the main content area displays the
    selected dashboard exactly when [DASHBOARD_PERMISSIONS] allows it to
    that role. *)
Theorem main_page_follows_permissions {B : Bcrypt}
    (evs : list App.app_event) (db0 : Db.database)
    (env : App.run_env) (selected : Main.nav_option) (i : App.interaction) :
  App.roles_known db0 ->
  fst (fst (App.main env selected i
              (fst (App.run_app_events evs (None, db0)))
              (snd (App.run_app_events evs (None, db0))))) <> App.CrashNoRole
  /\ forall c,
       fst (fst (App.main env selected i
                   (fst (App.run_app_events evs (None, db0)))
                   (snd (App.run_app_events evs (None, db0))))) = App.MainPage c ->
       exists s role,
         fst (App.run_app_events evs (None, db0)) = Some s
         /\ App.authenticated s = true
         /\ App.user_role s = Some role
         /\ In role Main.known_roles
         /\ c = Main.show_selected role selected
         /\ Main.is_displayed c = Main.authorize role (Main.dashboard_key selected).
Proof.
  intros Hk0.
  destruct (run_app_events_keeps evs (None, db0) I) as [Hst Hk].
  specialize (Hk Hk0).
  destruct (App.run_app_events evs (None, db0)) as [state db]. cbn [fst snd] in *.
  pose proof (main_keeps env selected i state db Hst) as Hm.
  destruct (App.main env selected i state db) as [[p s'] db'].
  cbn [fst snd]. destruct Hm as (_ & _ & Hp & Hc). split; [exact Hp|].
  intros c E. destruct (Hc c E) as (s & role & -> & Hauth & Hr & ->).
  assert (In role Main.known_roles) as Hin.
  { unfold App.state_ok, App.session_ok in Hst. cbn [fst snd] in Hst.
    rewrite Hauth in Hst. destruct Hst as (name & role' & row & _ & Hr' & F & <-).
    rewrite Hr in Hr'. injection Hr' as ->.
    unfold fetchone_where in F. apply find_some in F. destruct F as [Hrow _].
    unfold App.roles_known in Hk. rewrite Forall_forall in Hk. now apply Hk. }
  exists s, role. repeat split; auto. now apply show_selected_known_role.
Qed.

Lemma main_page_follows_permissions_witness :
  App.roles_known Db.empty_db
  /\ exists s role,
       fst (@App.run_app_events Sample.toy_bcrypt Sample.alice_session
              (None, Db.empty_db)) = Some s
       /\ App.user_role s = Some role
       /\ In role Main.known_roles
       /\ Main.is_displayed (Main.Display Main.Cybersecurity)
          = Main.authorize role (Main.dashboard_key Main.Cybersecurity).
Proof.
  assert (App.roles_known Db.empty_db) as Hk by constructor.
  refine (conj Hk _).
  destruct (proj2 (@main_page_follows_permissions Sample.toy_bcrypt
                     Sample.alice_session Db.empty_db Sample.quiet_env
                     Main.Cybersecurity App.NoInteraction Hk)
              (Main.Display Main.Cybersecurity) eq_refl)
    as (s & role & E & _ & Hr & Hin & _ & Hd).
  exists s, role. exact (conj E (conj Hr (conj Hin Hd))).
Defined.

(** ** Creating records *)

Lemma fold_max_ge (ids : list Z) (i : Z) :
  In i ids -> i <= fold_right Z.max 0 ids.
Proof.
  induction ids as [|a ids IH]; simpl; [contradiction|].
  intros [->|H]; [lia|]. specialize (IH H). lia.
Qed.

Lemma next_rowid_fresh (ids : list Z) (seq : Z) :
  seq < Db.next_rowid ids seq
  /\ forall i, In i ids -> i < Db.next_rowid ids seq.
Proof.
  unfold Db.next_rowid. split; [lia|].
  intros i H. apply fold_max_ge in H. lia.
Qed.

Lemma incident_ids_after_update {Sq : SqlReal} ev now i status db :
  map Incident.id (Db.cyber_incidents (snd (Db.update_incident_status ev now i status db)))
  = map Incident.id (Db.cyber_incidents db).
Proof.
  destruct ev; try reflexivity. simpl.
  induction (Db.cyber_incidents db) as [|a t IH]; simpl; [reflexivity|].
  rewrite IH. now destruct (Db.has_incident_id i a).
Qed.

Lemma NoDup_map_filter {R K : Type} (key : R -> K) (p : R -> bool) (t : list R) :
  NoDup (map key t) -> NoDup (map key (filter p t)).
Proof.
  induction t as [|a t IH]; simpl; intros H; [constructor|].
  apply NoDup_cons_iff in H. destruct H as [Ha Ht].
  destruct (p a); simpl; [|now apply IH].
  constructor; [|now apply IH]. intros Hin. apply Ha.
  apply in_map_iff in Hin. destruct Hin as (x & E & Hx).
  apply filter_In in Hx. rewrite <- E. apply in_map. tauto.
Qed.

Lemma incident_ids_after_delete ev i db :
  (NoDup (map Incident.id (Db.cyber_incidents db)) ->
   NoDup (map Incident.id (Db.cyber_incidents (snd (Db.delete_incident ev i db)))))
  /\ forall j, In j (map Incident.id
                       (Db.cyber_incidents (snd (Db.delete_incident ev i db)))) ->
               In j (map Incident.id (Db.cyber_incidents db)).
Proof.
  destruct ev; try solve [split; auto]. simpl. split.
  - apply NoDup_map_filter.
  - intros j Hj. apply in_map_iff in Hj. destruct Hj as (x & E & Hx).
    apply filter_In in Hx. rewrite <- E. apply in_map. tauto.
Qed.






Lemma on_tables_snd {A : Type} (method : Db.database -> A * Db.database) st :
  snd (Db.on_tables method st)
  = Db.mkstore (snd (method (Db.tables st))) (Db.sqlite_sequence st).
Proof. unfold Db.on_tables. now destruct (method (Db.tables st)). Qed.

Lemma create_cyber_incident_keeps_ids ev data st :
  Db.incident_ids_ok st ->
  Db.incident_ids_ok (snd (Db.create_cyber_incident ev data st))
  /\ Db.seq_incidents (Db.sqlite_sequence st)
     <= Db.seq_incidents (Db.sqlite_sequence (snd (Db.create_cyber_incident ev data st))).
Proof.
  intros Hok. destruct ev; try (split; [exact Hok|simpl; lia]).
  unfold Db.create_cyber_incident. cbv zeta.
  destruct (next_rowid_fresh (map Incident.id (Db.cyber_incidents (Db.tables st)))
              (Db.seq_incidents (Db.sqlite_sequence st))) as [Hseq Hids].
  set (new_id := Db.next_rowid (map Incident.id (Db.cyber_incidents (Db.tables st)))
                   (Db.seq_incidents (Db.sqlite_sequence st))) in *.
  destruct (Db.max_rowid <? new_id); [split; [exact Hok|simpl; lia]|].
  destruct Hok as [Hnd Hle]. split; [|simpl; lia].
  unfold Db.incident_ids_ok. simpl. rewrite map_app. simpl. split.
  - apply NoDup_app; [exact Hnd|constructor; [tauto|constructor]|].
    intros a Ha [<-|[]]. specialize (Hids _ Ha). lia.
  - intros i Hi. apply in_app_iff in Hi. destruct Hi as [Hi|[<-|[]]]; [|lia].
    specialize (Hids _ Hi). lia.
Qed.

Lemma apply_incident_call_keeps_ids {Sq : SqlReal} st c :
  Db.incident_ids_ok st ->
  Db.incident_ids_ok (Db.apply_incident_call st c)
  /\ Db.seq_incidents (Db.sqlite_sequence st)
     <= Db.seq_incidents (Db.sqlite_sequence (Db.apply_incident_call st c)).
Proof.
  intros Hok. destruct c as [ev data|ev now i status|ev i]; simpl.
  - now apply create_cyber_incident_keeps_ids.
  - rewrite on_tables_snd. split; [|simpl; lia].
    unfold Db.incident_ids_ok. simpl. rewrite incident_ids_after_update.
    exact Hok.
  - rewrite on_tables_snd. split; [|simpl; lia].
    destruct Hok as [Hnd Hle]. unfold Db.incident_ids_ok. simpl.
    destruct (incident_ids_after_delete ev i (Db.tables st)) as [H1 H2].
    split; [now apply H1|]. intros j Hj. apply Hle. now apply H2.
Qed.

Lemma run_incident_calls_keeps_ids {Sq : SqlReal} cs :
  forall st,
    Db.incident_ids_ok st ->
    Db.incident_ids_ok (Db.run_incident_calls cs st)
    /\ Db.seq_incidents (Db.sqlite_sequence st)
       <= Db.seq_incidents (Db.sqlite_sequence (Db.run_incident_calls cs st)).
Proof.
  unfold Db.run_incident_calls.
  induction cs as [|c cs IH]; intros st Hok; [split; [exact Hok|simpl; lia]|].
  simpl. destruct (apply_incident_call_keeps_ids st c Hok) as [H1 H2].
  destruct (IH _ H1) as [H3 H4]. split; [exact H3|lia].
Qed.

(** X14.  Take a database file in which the incident ids are distinct
    and none is above the sequence (the empty file is one), and make any
    calls of [create_cyber_incident], [update_incident_status] and
    [delete_incident], with any arguments and engine behaviour.  The ids
    stay distinct and at most the sequence, and the sequence never goes
    down.  So an id that a later create returns is above the sequence the
    file started with: no id of a row that existed then is given out
    again, also when that row was deleted in between. *)
Theorem incident_ids_never_reused {Sq : SqlReal}
    (cs : list Db.incident_call) (st : Db.store) (data : Db.IncidentData.dict) :
  Db.incident_ids_ok st ->
  Db.incident_ids_ok (Db.run_incident_calls cs st)
  /\ Db.seq_incidents (Db.sqlite_sequence st)
     <= Db.seq_incidents (Db.sqlite_sequence (Db.run_incident_calls cs st))
  /\ forall new_id st',
       Db.create_cyber_incident Db.Healthy data (Db.run_incident_calls cs st)
       = (Ret new_id, st') ->
       Db.seq_incidents (Db.sqlite_sequence st) < new_id
       /\ ~ In new_id (map Incident.id (Db.cyber_incidents (Db.tables st)))
       /\ Db.incident_ids_ok st'.
Proof.
  intros Hok. destruct (run_incident_calls_keeps_ids cs st Hok) as [H1 H2].
  split; [exact H1|]. split; [exact H2|].
  intros new_id st' C.
  pose proof (create_cyber_incident_keeps_ids Db.Healthy data _ H1) as [H3 _].
  rewrite C in H3. simpl in H3.
  unfold Db.create_cyber_incident in C. cbv zeta in C.
  destruct (next_rowid_fresh
              (map Incident.id
                 (Db.cyber_incidents (Db.tables (Db.run_incident_calls cs st))))
              (Db.seq_incidents (Db.sqlite_sequence (Db.run_incident_calls cs st))))
    as [Hseq _].
  destruct (Db.max_rowid <? _) in C; [discriminate|].
  injection C as <- _.
  assert (Db.seq_incidents (Db.sqlite_sequence st)
          < Db.next_rowid
              (map Incident.id
                 (Db.cyber_incidents (Db.tables (Db.run_incident_calls cs st))))
              (Db.seq_incidents (Db.sqlite_sequence (Db.run_incident_calls cs st))))
    as Hlt by lia.
  split; [exact Hlt|]. split; [|exact H3].
  intros Hin. destruct Hok as [_ Hle]. specialize (Hle _ Hin). lia.
Qed.

Lemma incident_ids_never_reused_witness :
  Db.incident_ids_ok Sample.file_with_history
  /\ Db.create_cyber_incident Db.Healthy Sample.malware_report
       (Db.run_incident_calls
          [Db.CallDelete Db.Healthy 1;
           Db.CallCreate (Db.FailCommit Sample.locked) Sample.malware_report]
          Sample.file_with_history)
     = (Ret 6,
        Db.mkstore
          (Db.mkdb [] [Db.incident_of_data 6 Sample.malware_report]
             [Sample.survey] [Sample.printer])
          (Db.mkseq 6 3 7))
  /\ ~ In 6 (map Incident.id
               (Db.cyber_incidents (Db.tables Sample.file_with_history))).
Proof.
  assert (Db.incident_ids_ok Sample.file_with_history) as Hok.
  { split; simpl.
    - constructor; [tauto|constructor].
    - intros i [<-|[]]. lia. }
  refine (conj Hok (conj eq_refl _)).
  exact (proj1 (proj2
    (proj2 (proj2 (incident_ids_never_reused
                     [Db.CallDelete Db.Healthy 1;
                      Db.CallCreate (Db.FailCommit Sample.locked)
                        Sample.malware_report]
                     Sample.file_with_history Sample.malware_report Hok))
       6 _ eq_refl))).
Defined.




(** ** Validation of imported rows *)

Section Validation.
Variable strip : string -> string.

Lemma field_missing_false row field :
  DataImport.field_missing strip row field = false
  <-> exists v, row field = Some v /\ v <> DataImport.Missing
                /\ strip (DataImport.cell_str v) <> "".
Proof.
  unfold DataImport.field_missing. split.
  - destruct (row field) as [[|s|s]|]; try discriminate;
      intros H; apply String.eqb_neq in H; eexists; repeat split;
      try exact H; discriminate.
  - intros (v & -> & Hv & Hs). destruct v; [congruence| |];
      now apply String.eqb_neq.
Qed.

Lemma first_missing_none row fields :
  DataImport.first_missing strip row fields = None
  <-> forall field, In field fields ->
                    DataImport.field_missing strip row field = false.
Proof.
  induction fields as [|f fields IH]; simpl.
  - split; [intros _ ? []|reflexivity].
  - destruct (DataImport.field_missing strip row f) eqn:E.
    + split; [discriminate|]. intros H. specialize (H f (or_introl eq_refl)).
      congruence.
    + rewrite IH. split.
      * intros H field [<-|Hin]; auto.
      * intros H field Hin. apply H. now right.
Qed.

Lemma not_in_false v valid :
  DataImport.not_in v valid = false
  <-> exists s, v = DataImport.Text s /\ In s valid.
Proof.
  unfold DataImport.not_in. split.
  - destruct v as [|s|s]; try discriminate. intros H.
    apply negb_false_iff, existsb_exists in H. destruct H as (x & Hx & E).
    apply String.eqb_eq in E. subst x. now exists s.
  - intros (s & -> & Hin). apply negb_false_iff, existsb_exists.
    exists s. split; [exact Hin|apply String.eqb_refl].
Qed.

Lemma subscript_text row field s :
  DataImport.subscript row field = DataImport.Text s
  <-> row field = Some (DataImport.Text s).
Proof.
  unfold DataImport.subscript. destruct (row field) as [v|]; split; congruence.
Qed.

End Validation.

(** X16.  [validate_cyber_incident_row] accepts a row exactly when
    title, threat type, severity and status are all present, not missing
    and not blank, the severity is a string of [INCIDENT_SEVERITIES] and
    the status is a string of [INCIDENT_STATUSES] or ["Closed"], which the
    form of the dashboard does not offer.  A rejected row always comes with
    a message, and a row without a title is reported for its title
    whatever else is wrong with it. *)
Theorem incident_row_accepted (strip : string -> string)
    (row : DataImport.row_dict) :
  (DataImport.validate_cyber_incident_row strip row = (true, None)
   <-> (forall field, In field ["title"; "threat_type"; "severity"; "status"] ->
          exists v, row field = Some v /\ v <> DataImport.Missing
                    /\ strip (DataImport.cell_str v) <> "")
       /\ (exists s, row "severity" = Some (DataImport.Text s)
                     /\ In s Config.INCIDENT_SEVERITIES)
       /\ (exists s, row "status" = Some (DataImport.Text s)
                     /\ In s (Config.INCIDENT_STATUSES ++ ["Closed"])%list))
  /\ (fst (DataImport.validate_cyber_incident_row strip row) = false ->
      exists message,
        snd (DataImport.validate_cyber_incident_row strip row) = Some message)
  /\ (row "title" = None ->
      DataImport.validate_cyber_incident_row strip row
      = (false, Some "Missing required field: title")).
Proof.
  unfold DataImport.validate_cyber_incident_row. split; [|split].
  - destruct (DataImport.first_missing strip row
                ["title"; "threat_type"; "severity"; "status"]) eqn:M.
    + split; [discriminate|]. intros (Hfields & _).
      assert (DataImport.first_missing strip row
                ["title"; "threat_type"; "severity"; "status"] = None) as M'.
      { apply first_missing_none. intros f Hf. apply field_missing_false.
        now apply Hfields. }
      congruence.
    + assert (forall field, In field ["title"; "threat_type"; "severity"; "status"] ->
                exists v, row field = Some v /\ v <> DataImport.Missing
                          /\ strip (DataImport.cell_str v) <> "") as Hfields.
      { intros f Hf. apply field_missing_false.
        now apply (proj1 (first_missing_none strip row _) M). }
      destruct (DataImport.not_in (DataImport.subscript row "severity") _) eqn:S1.
      * split; [discriminate|]. intros (_ & (s & Hs & Hin) & _).
        assert (DataImport.not_in (DataImport.subscript row "severity")
                  ["Low"; "Medium"; "High"; "Critical"] = false) as S1'.
        { apply not_in_false. exists s. split; [now apply subscript_text|exact Hin]. }
        congruence.
      * destruct (DataImport.not_in (DataImport.subscript row "status") _) eqn:S2.
        -- split; [discriminate|]. intros (_ & _ & (s & Hs & Hin)).
           assert (DataImport.not_in (DataImport.subscript row "status")
                     ["Open"; "In Progress"; "Resolved"; "Closed"] = false) as S2'.
           { apply not_in_false. exists s.
             split; [now apply subscript_text|exact Hin]. }
           congruence.
        -- split; [intros _|reflexivity]. split; [exact Hfields|].
           apply not_in_false in S1, S2.
           destruct S1 as (s1 & E1 & I1), S2 as (s2 & E2 & I2).
           apply subscript_text in E1, E2.
           split; [now exists s1|now exists s2].
  - destruct (DataImport.first_missing strip row _); simpl;
      [intros _; eexists; reflexivity|].
    destruct (DataImport.not_in (DataImport.subscript row "severity") _); simpl;
      [intros _; eexists; reflexivity|].
    destruct (DataImport.not_in (DataImport.subscript row "status") _); simpl;
      [intros _; eexists; reflexivity|discriminate].
  - intros Hnone. simpl. unfold DataImport.field_missing at 1.
    now rewrite Hnone.
Qed.

Lemma incident_row_accepted_witness :
  ((forall field, In field ["title"; "threat_type"; "severity"; "status"] ->
      exists v, Sample.csv_row field = Some v /\ v <> DataImport.Missing
                /\ Sample.strip_blank (DataImport.cell_str v) <> "")
   /\ (exists s, Sample.csv_row "severity" = Some (DataImport.Text s)
                 /\ In s Config.INCIDENT_SEVERITIES)
   /\ (exists s, Sample.csv_row "status" = Some (DataImport.Text s)
                 /\ In s (Config.INCIDENT_STATUSES ++ ["Closed"])%list))
  /\ DataImport.validate_cyber_incident_row Sample.strip_blank Sample.csv_row
     = (true, None).
Proof.
  assert ((forall field, In field ["title"; "threat_type"; "severity"; "status"] ->
      exists v, Sample.csv_row field = Some v /\ v <> DataImport.Missing
                /\ Sample.strip_blank (DataImport.cell_str v) <> "")
   /\ (exists s, Sample.csv_row "severity" = Some (DataImport.Text s)
                 /\ In s Config.INCIDENT_SEVERITIES)
   /\ (exists s, Sample.csv_row "status" = Some (DataImport.Text s)
                 /\ In s (Config.INCIDENT_STATUSES ++ ["Closed"])%list)) as H.
  { split; [|split].
    - intros field [<-|[<-|[<-|[<-|[]]]]]; eexists;
        (split; [reflexivity|split; discriminate]).
    - exists "High". split; [reflexivity|simpl; tauto].
    - exists "Closed". split; [reflexivity|simpl; tauto]. }
  refine (conj H _).
  exact (proj2 (proj1 (incident_row_accepted Sample.strip_blank Sample.csv_row)) H).
Defined.

(** X17.  [validate_it_ticket_row] accepts a row exactly when title,
    status, assignee and current stage are all present, not missing and
    not blank, and the status is a string of [TICKET_STATUSES] or
    ["Pending"].  A rejected row always comes with a message. *)
Theorem ticket_row_accepted (strip : string -> string)
    (row : DataImport.row_dict) :
  (DataImport.validate_it_ticket_row strip row = (true, None)
   <-> (forall field, In field ["title"; "status"; "assigned_to"; "current_stage"] ->
          exists v, row field = Some v /\ v <> DataImport.Missing
                    /\ strip (DataImport.cell_str v) <> "")
       /\ (exists s, row "status" = Some (DataImport.Text s)
                     /\ In s ("Pending" :: Config.TICKET_STATUSES)))
  /\ (fst (DataImport.validate_it_ticket_row strip row) = false ->
      exists message,
        snd (DataImport.validate_it_ticket_row strip row) = Some message).
Proof.
  unfold DataImport.validate_it_ticket_row. split.
  - destruct (DataImport.first_missing strip row
                ["title"; "status"; "assigned_to"; "current_stage"]) eqn:M.
    + split; [discriminate|]. intros (Hfields & _).
      assert (DataImport.first_missing strip row
                ["title"; "status"; "assigned_to"; "current_stage"] = None) as M'.
      { apply first_missing_none. intros f Hf. apply field_missing_false.
        now apply Hfields. }
      congruence.
    + assert (forall field,
                In field ["title"; "status"; "assigned_to"; "current_stage"] ->
                exists v, row field = Some v /\ v <> DataImport.Missing
                          /\ strip (DataImport.cell_str v) <> "") as Hfields.
      { intros f Hf. apply field_missing_false.
        now apply (proj1 (first_missing_none strip row _) M). }
      destruct (DataImport.not_in (DataImport.subscript row "status") _) eqn:S2.
      * split; [discriminate|]. intros (_ & (s & Hs & Hin)).
        assert (DataImport.not_in (DataImport.subscript row "status")
                  ["Open"; "In Progress"; "Pending"; "Resolved"; "Closed"] = false)
          as S2'.
        { apply not_in_false. exists s. split; [now apply subscript_text|].
          simpl in Hin |- *. tauto. }
        congruence.
      * split; [intros _|reflexivity]. split; [exact Hfields|].
        apply not_in_false in S2. destruct S2 as (s2 & E2 & I2).
        apply subscript_text in E2. exists s2. split; [exact E2|].
        simpl in I2 |- *. tauto.
  - destruct (DataImport.first_missing strip row _); simpl;
      [intros _; eexists; reflexivity|].
    destruct (DataImport.not_in (DataImport.subscript row "status") _); simpl;
      [intros _; eexists; reflexivity|discriminate].
Qed.

Lemma ticket_row_accepted_witness :
  ((forall field, In field ["title"; "status"; "assigned_to"; "current_stage"] ->
      exists v, Sample.csv_row field = Some v /\ v <> DataImport.Missing
                /\ Sample.strip_blank (DataImport.cell_str v) <> "")
   /\ (exists s, Sample.csv_row "status" = Some (DataImport.Text s)
                 /\ In s ("Pending" :: Config.TICKET_STATUSES)))
  /\ DataImport.validate_it_ticket_row Sample.strip_blank Sample.csv_row
     = (true, None).
Proof.
  assert ((forall field, In field ["title"; "status"; "assigned_to"; "current_stage"] ->
      exists v, Sample.csv_row field = Some v /\ v <> DataImport.Missing
                /\ Sample.strip_blank (DataImport.cell_str v) <> "")
   /\ (exists s, Sample.csv_row "status" = Some (DataImport.Text s)
                 /\ In s ("Pending" :: Config.TICKET_STATUSES))) as H.
  { split.
    - intros field [<-|[<-|[<-|[<-|[]]]]]; eexists;
        (split; [reflexivity|split; discriminate]).
    - exists "Closed". split; [reflexivity|simpl; tauto]. }
  refine (conj H _).
  exact (proj2 (proj1 (ticket_row_accepted Sample.strip_blank Sample.csv_row)) H).
Defined.

(** ** The users table over the life of the application *)

Section UsersOverTime.
Context {B : Bcrypt}.

Lemma users_grew_refl db : App.users_grew db db.
Proof. exists []. split; [now rewrite app_nil_r|constructor]. Qed.

Lemma users_grew_trans db1 db2 db3 :
  App.users_grew db1 db2 -> App.users_grew db2 db3 -> App.users_grew db1 db3.
Proof.
  intros (x & E1 & F1) (y & E2 & F2). exists (x ++ y)%list. split.
  - now rewrite E2, E1, app_assoc.
  - apply Forall_app. now split.
Qed.

Lemma init_database_any_pk ev now salts db :
  Db.users_pk db -> Db.users_pk (snd (Db.init_database ev now salts db)).
Proof.
  destruct ev; trivial. apply init_database_pk.
Qed.

Lemma register_user_pk ev1 ev2 now salt u pw role db :
  Db.users_pk db ->
  Db.users_pk (snd (Auth.register_user ev1 ev2 now salt u pw role db)).
Proof.
  intros Hpk. destruct (register_user_shape ev1 ev2 now salt u pw role db)
    as (b & -> & Hb).
  destruct b; [|exact Hpk]. unfold Db.users_pk. simpl.
  apply users_pk_append; [exact Hpk|]. simpl. now apply Hb.
Qed.

Lemma show_login_page_users env i s db :
  App.users_grew db (snd (App.show_login_page env i s db))
  /\ (Db.users_pk db -> Db.users_pk (snd (App.show_login_page env i s db))).
Proof.
  unfold App.show_login_page.
  destruct i as [|u p|nu np cp r|dark|];
    try (split; [apply users_grew_refl|trivial]).
  - destruct (App.nonempty u && App.nonempty p);
      [|split; [apply users_grew_refl|trivial]].
    destruct (Auth.login_user (App.env_get env) u p db) as [[user|]|e];
      split; (apply users_grew_refl || trivial).
  - destruct (App.nonempty nu && App.nonempty np);
      [|split; [apply users_grew_refl|trivial]].
    destruct (np =? cp)%string; [|split; [apply users_grew_refl|trivial]].
    pose proof (register_user_users (App.env_get env) (App.env_create env)
                  (App.env_now env) (App.env_salt env) nu np (App.role_text r) db)
      as (extra & E & Hroles).
    pose proof (register_user_pk (App.env_get env) (App.env_create env)
                  (App.env_now env) (App.env_salt env) nu np (App.role_text r) db)
      as Hpk.
    destruct (Auth.register_user (App.env_get env) (App.env_create env)
                (App.env_now env) (App.env_salt env) nu np (App.role_text r) db)
      as [o db'].
    simpl in E, Hpk |- *. split; [|exact Hpk].
    exists extra. rewrite E. split; [reflexivity|].
    eapply Forall_impl; [|exact Hroles]. intros x ->. apply role_text_known.
Qed.

Lemma show_main_application_same selected i s db :
  snd (App.show_main_application selected i s db) = db.
Proof.
  unfold App.show_main_application. destruct (App.user_role s); [|reflexivity].
  destruct i; try reflexivity. now destruct (Bool.eqb _ _).
Qed.

Lemma main_users env selected i state db :
  App.users_grew db (snd (App.main env selected i state db))
  /\ (Db.users_pk db -> Db.users_pk (snd (App.main env selected i state db))).
Proof.
  unfold App.main.
  set (s := match state with None => App.fresh_session | Some s => s end).
  pose proof (init_database_after (Db.init_event (App.env_init env))
                (Db.init_now (App.env_init env)) (Db.init_salts (App.env_init env)) db)
    as (extra & E & Hroles).
  pose proof (init_database_any_pk (Db.init_event (App.env_init env))
                (Db.init_now (App.env_init env)) (Db.init_salts (App.env_init env)) db)
    as Hpk.
  destruct (Db.init_database (Db.init_event (App.env_init env))
              (Db.init_now (App.env_init env)) (Db.init_salts (App.env_init env)) db)
    as [[u|e] db1]; simpl in E, Hpk.
  2: { simpl. split; [|exact Hpk]. exists extra. now rewrite E. }
  assert (App.users_grew db db1) as Hg by (exists extra; now rewrite E).
  destruct (App.authenticated s).
  - rewrite show_main_application_same. split; assumption.
  - destruct (show_login_page_users env i s db1) as [Hg' Hpk'].
    split; [now apply (users_grew_trans db db1)|]. intros H. apply Hpk', Hpk, H.
Qed.

Lemma apply_app_event_users st ev :
  App.users_grew (snd st) (snd (App.apply_app_event st ev))
  /\ (Db.users_pk (snd st) -> Db.users_pk (snd (App.apply_app_event st ev))).
Proof.
  destruct st as [state db]. destruct ev as [env selected i|inc dat tic].
  - unfold App.apply_app_event. cbn [fst snd].
    pose proof (main_users env selected i state db) as H.
    destruct (App.main env selected i state db) as [[p s'] db']. exact H.
  - simpl. split; [|trivial]. exists []. simpl.
    split; [now rewrite app_nil_r|constructor].
Qed.

Lemma run_app_events_users evs :
  forall st,
    App.users_grew (snd st) (snd (App.run_app_events evs st))
    /\ (Db.users_pk (snd st) -> Db.users_pk (snd (App.run_app_events evs st))).
Proof.
  induction evs as [|ev evs IH]; intros st.
  - split; [apply users_grew_refl|trivial].
  - simpl. destruct (apply_app_event_users st ev) as [H1 H2].
    destruct (IH (App.apply_app_event st ev)) as [H3 H4].
    split; [now apply (users_grew_trans _ _ _ H1)|]. intros H. apply H4, H2, H.
Qed.

End UsersOverTime.

(** X18.  Over any history of a browser session (runs of the script
    with any interaction, clock, salt and engine behaviour, and dashboard
    writes in between), from any store, no user row is ever changed,
    moved or removed: the users table at the end is the table at the start
    followed by new rows, and each new row has one of the four roles of
    the permission table.  If usernames were unique at the start they are
    unique at the end. *)
Theorem users_only_grow {B : Bcrypt}
    (evs : list App.app_event) (state : option App.session_state)
    (db0 : Db.database) :
  (exists extra,
     Db.users (snd (App.run_app_events evs (state, db0)))
     = (Db.users db0 ++ extra)%list
     /\ Forall (fun r => In (User.role r) Main.known_roles) extra)
  /\ (Db.users_pk db0 ->
      Db.users_pk (snd (App.run_app_events evs (state, db0)))).
Proof.
  exact (run_app_events_users evs (state, db0)).
Qed.

Lemma users_only_grow_witness :
  Db.users_pk Sample.partly_seeded
  /\ Db.users_pk
       (snd (@App.run_app_events Sample.toy_bcrypt Sample.alice_session
               (None, Sample.partly_seeded))).
Proof.
  assert (Db.users_pk Sample.partly_seeded) as Hpk.
  { unfold Db.users_pk. simpl.
    repeat (constructor; [simpl; intuition discriminate|]). constructor. }
  refine (conj Hpk _).
  exact (proj2 (@users_only_grow Sample.toy_bcrypt Sample.alice_session None
                  Sample.partly_seeded) Hpk).
Defined.
